(** * gr-analyzer: the frequency-segmentation and bin-indexing engine

    A shallow embedding of [configuration.py] (the [configuration] object and
    its [update_*] methods) and of the [fft_size] validator of
    [cli_parser.py], with the properties of the frequency plan stated and
    settled on it.

    Number model.  Python's [int] is [Z].  Python's [float] is modelled by the
    exact rationals [Q] (compared with [==]): every operation is the real one,
    without binary64 rounding, overflow, infinities or NaN.  Concrete inputs
    used below are chosen so that the binary64 computation gives the same
    integers.  The source targets Python 2 ([from __future__ import division]):
    [/] is true division, [round] rounds halves away from zero and returns a
    float, [int] truncates toward zero, [math.floor] rounds down. *)

From Stdlib Require Import ZArith QArith Qround Qabs List Lia Lqa String Ascii Bool.
Import ListNotations.

Local Open Scope Q_scope.

(** ** Python and numpy primitives used by the source *)

Module Py.

(** The exception classes that the modelled code can raise. *)
Inductive exn : Set :=
| ZeroDivisionError
| ValueError
| IndexError
| TypeError
| ArgumentTypeError.


(** What evaluating an expression or running a statement gives. *)
Inductive outcome (A : Type) : Type :=
| Returned (a : A)
| Raised (e : exn).
Arguments Returned {A} a.
Arguments Raised {A} e.

(** [a / b] under [from __future__ import division]. *)
Definition truediv (a b : Q) : outcome Q :=
  if Qeq_bool b 0 then Raised ZeroDivisionError else Returned (a / b).

(** [int(x)] for a float [x]: truncation toward zero. *)
Definition int (x : Q) : Z :=
  if Qle_bool 0 x then Qfloor x else Qceiling x.

(** [round(x)] of Python 2: nearest integer, halves away from zero. *)
Definition round (x : Q) : Z :=
  if Qle_bool 0 x then Qfloor (x + (1 # 2)) else Qceiling (x - (1 # 2)).

(** [math.floor(x)]. *)
Definition floor (x : Q) : Z := Qfloor x.

(** [np.arange(start, stop, step)]: the values [start + i*step] for
    [0 <= i < ceil((stop - start) / step)]; numpy refuses a zero step. *)
Definition arange (start stop step : Q) : outcome (list Q) :=
  if Qeq_bool step 0 then Raised ZeroDivisionError
  else
    let n := Z.to_nat (Qceiling ((stop - start) / step)) in
    Returned (map (fun i => start + inject_Z (Z.of_nat i) * step) (seq 0 n)).

(** [a[-1]]. *)
Definition last_item (a : list Q) : outcome Q :=
  match rev a with
  | [] => Raised IndexError
  | x :: _ => Returned x
  end.

(** [x in xs] for a collection of ints. *)
Definition contains (xs : list Z) (x : Z) : bool :=
  existsb (Z.eqb x) xs.

End Py.
Import Py.

(** ** utils.find_nearest and consts.FFT_SIZES *)

Module Utils.

(** Index of the first strict minimum of a list, scanning left to right
    from a current best; this is what an [argmin] returns. *)
Fixpoint argmin_from (best_i : nat) (best : Q) (i : nat) (l : list Q) : nat :=
  match l with
  | [] => best_i
  | x :: r =>
      if Qle_bool best x then argmin_from best_i best (S i) r
      else argmin_from i x (S i) r
  end.

(** Modelled from the spec: [utils.find_nearest] is called by
    [update_bin_indices] but [utils.py] is not among the sources.  The spec
    (4.5) gives it as the index of the entry of the array closest to the
    value, ties broken toward the lower index.  An empty array has no such
    entry; the model raises there (numpy's [argmin] raises [ValueError]). *)
Definition find_nearest (array : list Q) (value : Q) : outcome Z :=
  match map (fun a => Qabs (a - value)) array with
  | [] => Raised ValueError
  | d :: ds => Returned (Z.of_nat (argmin_from 0 d 1 ds))
  end.

End Utils.

Module Consts.

(** Modelled from the spec: [consts.FFT_SIZES] is used by [set_fft_size]
    but [consts.py] is not among the sources.  The docstring of
    [set_fft_size] gives it: 2^n between 32 and 8192. *)
Definition FFT_SIZES : list Z :=
  [32; 64; 128; 256; 512; 1024; 2048; 4096; 8192]%Z.

End Consts.

(** ** configuration.py *)

Module Configuration.

(** The attributes of the [configuration] object that the plan reads and
    writes.  The first five come from the command line; the others are set
    to [None] by [__init__] and assigned by [update]. *)
Record configuration : Type := mk_configuration {
  sample_rate : Q;
  fft_size : Z;
  overlap : Q;
  center_freq : Q;
  requested_span : option Q;
  span : option Q;
  deltaf : option Q;
  freq_step : option Z;
  min_freq : option Q;
  max_freq : option Q;
  center_freqs : option (list Q);
  n_segments : option Z;
  bin_freqs : option (list Q);
  bin_start : option Z;
  bin_stop : option Z;
  bin_offset : option Q;
  max_plotted_bin : option Z
}.

(** Attribute assignment [self.x = v]. *)
Definition set_fft_size_attr (v : Z) (c : configuration) : configuration :=
  mk_configuration (sample_rate c) v (overlap c) (center_freq c)
    (requested_span c) (span c) (deltaf c) (freq_step c) (min_freq c)
    (max_freq c) (center_freqs c) (n_segments c) (bin_freqs c) (bin_start c)
    (bin_stop c) (bin_offset c) (max_plotted_bin c).

Definition set_overlap_attr (v : Q) (c : configuration) : configuration :=
  mk_configuration (sample_rate c) (fft_size c) v (center_freq c)
    (requested_span c) (span c) (deltaf c) (freq_step c) (min_freq c)
    (max_freq c) (center_freqs c) (n_segments c) (bin_freqs c) (bin_start c)
    (bin_stop c) (bin_offset c) (max_plotted_bin c).

Definition set_requested_span_attr (v : option Q) (c : configuration) :
    configuration :=
  mk_configuration (sample_rate c) (fft_size c) (overlap c) (center_freq c)
    v (span c) (deltaf c) (freq_step c) (min_freq c)
    (max_freq c) (center_freqs c) (n_segments c) (bin_freqs c) (bin_start c)
    (bin_stop c) (bin_offset c) (max_plotted_bin c).

Definition set_span (v : Q) (c : configuration) : configuration :=
  mk_configuration (sample_rate c) (fft_size c) (overlap c) (center_freq c)
    (requested_span c) (Some v) (deltaf c) (freq_step c) (min_freq c)
    (max_freq c) (center_freqs c) (n_segments c) (bin_freqs c) (bin_start c)
    (bin_stop c) (bin_offset c) (max_plotted_bin c).

Definition set_deltaf (v : Q) (c : configuration) : configuration :=
  mk_configuration (sample_rate c) (fft_size c) (overlap c) (center_freq c)
    (requested_span c) (span c) (Some v) (freq_step c) (min_freq c)
    (max_freq c) (center_freqs c) (n_segments c) (bin_freqs c) (bin_start c)
    (bin_stop c) (bin_offset c) (max_plotted_bin c).

Definition set_freq_step (v : Z) (c : configuration) : configuration :=
  mk_configuration (sample_rate c) (fft_size c) (overlap c) (center_freq c)
    (requested_span c) (span c) (deltaf c) (Some v) (min_freq c)
    (max_freq c) (center_freqs c) (n_segments c) (bin_freqs c) (bin_start c)
    (bin_stop c) (bin_offset c) (max_plotted_bin c).

Definition set_min_freq (v : Q) (c : configuration) : configuration :=
  mk_configuration (sample_rate c) (fft_size c) (overlap c) (center_freq c)
    (requested_span c) (span c) (deltaf c) (freq_step c) (Some v)
    (max_freq c) (center_freqs c) (n_segments c) (bin_freqs c) (bin_start c)
    (bin_stop c) (bin_offset c) (max_plotted_bin c).

Definition set_max_freq (v : Q) (c : configuration) : configuration :=
  mk_configuration (sample_rate c) (fft_size c) (overlap c) (center_freq c)
    (requested_span c) (span c) (deltaf c) (freq_step c) (min_freq c)
    (Some v) (center_freqs c) (n_segments c) (bin_freqs c) (bin_start c)
    (bin_stop c) (bin_offset c) (max_plotted_bin c).

Definition set_center_freqs (v : list Q) (c : configuration) : configuration :=
  mk_configuration (sample_rate c) (fft_size c) (overlap c) (center_freq c)
    (requested_span c) (span c) (deltaf c) (freq_step c) (min_freq c)
    (max_freq c) (Some v) (n_segments c) (bin_freqs c) (bin_start c)
    (bin_stop c) (bin_offset c) (max_plotted_bin c).

Definition set_n_segments (v : Z) (c : configuration) : configuration :=
  mk_configuration (sample_rate c) (fft_size c) (overlap c) (center_freq c)
    (requested_span c) (span c) (deltaf c) (freq_step c) (min_freq c)
    (max_freq c) (center_freqs c) (Some v) (bin_freqs c) (bin_start c)
    (bin_stop c) (bin_offset c) (max_plotted_bin c).

Definition set_bin_freqs (v : list Q) (c : configuration) : configuration :=
  mk_configuration (sample_rate c) (fft_size c) (overlap c) (center_freq c)
    (requested_span c) (span c) (deltaf c) (freq_step c) (min_freq c)
    (max_freq c) (center_freqs c) (n_segments c) (Some v) (bin_start c)
    (bin_stop c) (bin_offset c) (max_plotted_bin c).

Definition set_bin_start (v : Z) (c : configuration) : configuration :=
  mk_configuration (sample_rate c) (fft_size c) (overlap c) (center_freq c)
    (requested_span c) (span c) (deltaf c) (freq_step c) (min_freq c)
    (max_freq c) (center_freqs c) (n_segments c) (bin_freqs c) (Some v)
    (bin_stop c) (bin_offset c) (max_plotted_bin c).

Definition set_bin_stop (v : Z) (c : configuration) : configuration :=
  mk_configuration (sample_rate c) (fft_size c) (overlap c) (center_freq c)
    (requested_span c) (span c) (deltaf c) (freq_step c) (min_freq c)
    (max_freq c) (center_freqs c) (n_segments c) (bin_freqs c) (bin_start c)
    (Some v) (bin_offset c) (max_plotted_bin c).

Definition set_bin_offset (v : Q) (c : configuration) : configuration :=
  mk_configuration (sample_rate c) (fft_size c) (overlap c) (center_freq c)
    (requested_span c) (span c) (deltaf c) (freq_step c) (min_freq c)
    (max_freq c) (center_freqs c) (n_segments c) (bin_freqs c) (bin_start c)
    (bin_stop c) (Some v) (max_plotted_bin c).

Definition set_max_plotted_bin (v : Z) (c : configuration) : configuration :=
  mk_configuration (sample_rate c) (fft_size c) (overlap c) (center_freq c)
    (requested_span c) (span c) (deltaf c) (freq_step c) (min_freq c)
    (max_freq c) (center_freqs c) (n_segments c) (bin_freqs c) (bin_start c)
    (bin_stop c) (bin_offset c) (Some v).

(** *** Methods run on the object: state that survives an exception

    A method takes the object and gives an outcome together with the object
    as the method left it.  When a statement raises, the statements after it
    do not run, and the assignments made before it stay. *)
Definition method (A : Type) : Type := configuration -> outcome A * configuration.

Definition ret {A} (a : A) : method A := fun c => (Returned a, c).

Definition bind {A B} (m : method A) (k : A -> method B) : method B :=
  fun c =>
    match m c with
    | (Returned a, c') => k a c'
    | (Raised e, c') => (Raised e, c')
    end.

(** An expression that may raise, evaluated without touching the object. *)
Definition eval {A} (o : outcome A) : method A := fun c => (o, c).

(** Reading an attribute that came from the command line. *)
Definition attr {A} (f : configuration -> A) : method A :=
  fun c => (Returned (f c), c).

(** Reading an attribute that [update] assigns, for arithmetic: [None]
    there is a [TypeError]. *)
Definition read {A} (f : configuration -> option A) : method A :=
  fun c =>
    match f c with
    | Some a => (Returned a, c)
    | None => (Raised TypeError, c)
    end.

Definition assign (upd : configuration -> configuration) : method unit :=
  fun c => (Returned tt, upd c).

Declare Scope method_scope.
Delimit Scope method_scope with method.
Notation "x <- m ;; k" := (bind m (fun x => k))
  (at level 61, m at next level, right associativity) : method_scope.
Notation "m ;; k" := (bind m (fun _ => k))
  (at level 61, right associativity) : method_scope.
Local Open Scope method_scope.

(** [adjust_rate(samp_rate, deltaf, overlap)] (a static method). *)
Definition adjust_rate (samp_rate deltaf overlap : Q) : outcome Z :=
  let ratio_valid_bins := 1 - overlap in
  match truediv (samp_rate * ratio_valid_bins) deltaf with
  | Returned q => Returned (int (inject_Z (round q) * deltaf))
  | Raised e => Raised e
  end.

Definition update_deltaf : method unit :=
  sr <- attr sample_rate ;;
  n <- attr fft_size ;;
  d <- eval (truediv sr (inject_Z n)) ;;
  assign (set_deltaf d).

Definition update_freq_step : method unit :=
  sr <- attr sample_rate ;;
  d <- read deltaf ;;
  ov <- attr overlap ;;
  fs <- eval (adjust_rate sr d ov) ;;
  assign (set_freq_step fs).

(** Truth value of [self.requested_span]: [None] and [0.0] are false. *)
Definition truthy (x : option Q) : bool :=
  match x with
  | Some q => negb (Qeq_bool q 0)
  | None => false
  end.

Definition update_span : method unit :=
  rs <- attr requested_span ;;
  match rs with
  | Some q =>
      if truthy rs then assign (set_span q)
      else (fs <- read freq_step ;; assign (set_span (inject_Z fs)))
  | None => fs <- read freq_step ;; assign (set_span (inject_Z fs))
  end.

Definition update_min_max_freq : method unit :=
  cf <- attr center_freq ;;
  sp <- read span ;;
  d <- read deltaf ;;
  assign (set_min_freq (cf - sp / 2 + d / 2)) ;;
  mn <- read min_freq ;;
  sp <- read span ;;
  d <- read deltaf ;;
  assign (set_max_freq (mn + sp - d)).

Definition update_tuned_freq_cache : method unit :=
  mn <- read min_freq ;;
  fs <- read freq_step ;;
  let min_fc := mn + inject_Z fs / 2 in
  sp <- read span ;;
  fs <- read freq_step ;;
  (if Qle_bool sp (inject_Z fs) then assign (set_center_freqs [min_fc])
   else
     sp <- read span ;;
     fs <- read freq_step ;;
     q <- eval (truediv sp (inject_Z fs)) ;;
     let initial_n_segments := floor q in
     fs <- read freq_step ;;
     let max_fc := min_fc + inject_Z initial_n_segments * inject_Z fs in
     fs <- read freq_step ;;
     cfs <- eval (arange min_fc (max_fc + 1) (inject_Z fs)) ;;
     assign (set_center_freqs cfs)) ;;
  cfs <- read center_freqs ;;
  assign (set_n_segments (Z.of_nat (List.length cfs))).

Definition update_bin_freq_cache : method unit :=
  cfs <- read center_freqs ;;
  max_fc <- eval (last_item cfs) ;;
  fs <- read freq_step ;;
  let max_bin_freq := max_fc + inject_Z fs / 2 in
  mn <- read min_freq ;;
  d <- read deltaf ;;
  bfs <- eval (arange mn max_bin_freq d) ;;
  assign (set_bin_freqs bfs).

Definition update_bin_indices : method unit :=
  n <- attr fft_size ;;
  ov <- attr overlap ;;
  assign (set_bin_start (int (inject_Z n * (ov / 2)))) ;;
  n <- attr fft_size ;;
  b0 <- read bin_start ;;
  assign (set_bin_stop (n - b0)%Z) ;;
  bfs <- read bin_freqs ;;
  mx <- read max_freq ;;
  i <- eval (Utils.find_nearest bfs mx) ;;
  assign (set_max_plotted_bin (i + 1)%Z) ;;
  b1 <- read bin_stop ;;
  b0 <- read bin_start ;;
  assign (set_bin_offset (inject_Z (b1 - b0) / 2)).

Definition update : method unit :=
  update_deltaf ;;
  update_freq_step ;;
  update_span ;;
  update_min_max_freq ;;
  update_tuned_freq_cache ;;
  update_bin_freq_cache ;;
  update_bin_indices.

(** [set_fft_size(size)]; the logger calls have no effect on the object. *)
Definition set_fft_size (size : Z) : method unit :=
  if contains Consts.FFT_SIZES size then assign (set_fft_size_attr size)
  else ret tt.

(** The part of [__init__] that concerns the plan: the command-line values
    are stored, the derived attributes start as [None], [update] runs. *)
Definition init_attrs (sr : Q) (n : Z) (overlap_percent : Z) (cf : Q)
    (sp : option Q) : configuration :=
  mk_configuration sr n (inject_Z overlap_percent / 100) cf sp
    None None None None None None None None None None None None.

Definition init (sr : Q) (n : Z) (overlap_percent : Z) (cf : Q)
    (sp : option Q) : outcome unit * configuration :=
  update (init_attrs sr n overlap_percent cf sp).

End Configuration.

(** ** cli_parser.py *)

Module CliParser.

Local Open Scope char_scope.

(** The characters that [int] strips around a literal. *)
Definition is_space (c : ascii) : bool :=
  match c with
  | " " | "009" | "010" | "011" | "012" | "013" => true
  | _ => false
  end.

Definition digit_val (c : ascii) : option Z :=
  match c with
  | "0" => Some 0%Z | "1" => Some 1%Z | "2" => Some 2%Z | "3" => Some 3%Z
  | "4" => Some 4%Z | "5" => Some 5%Z | "6" => Some 6%Z | "7" => Some 7%Z
  | "8" => Some 8%Z | "9" => Some 9%Z
  | _ => None
  end.

Fixpoint all_space (s : string) : bool :=
  match s with
  | EmptyString => true
  | String c r => is_space c && all_space r
  end.

Fixpoint lstrip (s : string) : string :=
  match s with
  | EmptyString => EmptyString
  | String c r => if is_space c then lstrip r else s
  end.

(** Digits after the first one, then optional trailing blanks. *)
Fixpoint more_digits (acc : Z) (s : string) : option Z :=
  match s with
  | EmptyString => Some acc
  | String c r =>
      match digit_val c with
      | Some d => more_digits (10 * acc + d) r
      | None => if all_space s then Some acc else None
      end
  end.

Definition digits (s : string) : option Z :=
  match s with
  | EmptyString => None
  | String c r =>
      match digit_val c with
      | Some d => more_digits d r
      | None => None
      end
  end.

(** [int(value)] for a command-line string: blanks, an optional sign, at
    least one decimal digit, blanks; [None] stands for [ValueError]. *)
Definition int_of_str (value : string) : option Z :=
  match lstrip value with
  | String "-" r => option_map Z.opp (digits r)
  | String "+" r => digits r
  | s => digits s
  end.

(** [fft_size(value)]: the [ValueError] of [int] and the [AssertionError]
    of the [assert] are both turned into [ArgumentTypeError]. *)
Definition fft_size (value : string) : outcome Z :=
  match int_of_str value with
  | Some v =>
      if (v mod 32 =? 0)%Z then Returned v else Raised ArgumentTypeError
  | None => Raised ArgumentTypeError
  end.

(** [percent(value)]: an integer from 0 to 99; it is returned as it is (the
    division by 100 is in [configuration.__init__]). *)
Definition percent (value : string) : outcome Z :=
  match int_of_str value with
  | Some v =>
      if ((0 <=? v) && (v <? 100))%Z then Returned v
      else Raised ArgumentTypeError
  | None => Raised ArgumentTypeError
  end.

End CliParser.

(** ** gui/main.py: the parts of the plot that read the plan *)

Module Gui.
Import Configuration.

(** [a[:m]]: a negative [m] counts from the end. *)
Definition slice_to (m : Z) (a : list Q) : list Q :=
  if (m <? 0)%Z then firstn (Z.to_nat (Z.of_nat (List.length a) + m)) a
  else firstn (Z.to_nat m) a.

(** [np.linspace(start, stop, num, endpoint=True)] for [num >= 2]. *)
Definition linspace (start stop : Q) (num : nat) : list Q :=
  map (fun i => start + inject_Z (Z.of_nat i)
                        * ((stop - start) / inject_Z (Z.of_nat (num - 1))))
    (seq 0 num).

(** [format_axis]: the lowest and the highest x tick and the five ticks. *)
Definition format_axis_xticks (c : configuration) : outcome (Q * Q * list Q) :=
  let cf := center_freq c in
  match span c with
  | Some sp =>
      let lowest_xtick := cf - sp / 2 in
      let highest_xtick := cf + sp / 2 in
      Returned (lowest_xtick, highest_xtick,
                linspace lowest_xtick highest_xtick 5)
  | None => Raised TypeError
  end.

(** [configure_mpl_plot(y, adjust_freq_range)]: the x values it stores in
    [self.x] and the value it returns ([False] for a dropped frame).  The
    drawing calls are left out. *)
Definition configure_mpl_plot (c : configuration) (y : list Q)
    (adjust_freq_range : bool) : outcome (list Q * bool) :=
  match bin_freqs c with
  | Some bfs =>
      let x := match max_plotted_bin c with
               | Some maxbin => slice_to maxbin bfs
               | None => bfs
               end in
      if adjust_freq_range && negb (List.length x =? List.length y)%nat
      then Returned (x, false)
      else Returned (x, true)
  | None => Raised TypeError
  end.

End Gui.

(** ** Vocabulary of the properties *)

Module Props.
Import Configuration.

(** Valid scan parameters: positive sample rate, FFT size a positive
    multiple of 32, overlap fraction in [0, 1). *)
Definition valid_params (c : configuration) : Prop :=
  0 < sample_rate c /\ (0 < fft_size c)%Z /\ (fft_size c mod 32 = 0)%Z /\
  0 <= overlap c /\ overlap c < 1.

(** The bin width and the usable bandwidth that [update] derives from the
    parameters of [c]. *)
Definition bin_width (c : configuration) : Q :=
  sample_rate c / inject_Z (fft_size c).

Definition usable_bandwidth (c : configuration) : outcome Z :=
  adjust_rate (sample_rate c) (bin_width c) (overlap c).

(** [x] is a whole number of steps of width [d]. *)
Definition multiple_of (d x : Q) : Prop :=
  exists k : Z, x == inject_Z k * d.

(** Consecutive entries of [l] differ by exactly [step]. *)
Definition stepped (step : Q) (l : list Q) : Prop :=
  forall i, (S i < List.length l)%nat -> nth (S i) l 0 - nth i l 0 == step.

Definition strictly_increasing (l : list Q) : Prop :=
  forall i j, (i < j)%nat -> (j < List.length l)%nat -> nth i l 0 < nth j l 0.

(** [c'] has the command-line attributes of [c]. *)
Definition same_params (c c' : configuration) : Prop :=
  sample_rate c' = sample_rate c /\ fft_size c' = fft_size c /\
  overlap c' = overlap c /\ center_freq c' = center_freq c /\
  requested_span c' = requested_span c.

(** [c'] has the plan (the derived attributes) of [c]. *)
Definition same_plan (c c' : configuration) : Prop :=
  span c' = span c /\ deltaf c' = deltaf c /\ freq_step c' = freq_step c /\
  min_freq c' = min_freq c /\ max_freq c' = max_freq c /\
  center_freqs c' = center_freqs c /\ n_segments c' = n_segments c /\
  bin_freqs c' = bin_freqs c /\ bin_start c' = bin_start c /\
  bin_stop c' = bin_stop c /\ bin_offset c' = bin_offset c /\
  max_plotted_bin c' = max_plotted_bin c.

(** What [update_span] stores: the requested span when it is given and not
    zero, one step otherwise. *)
Definition effective_span (rs : option Q) (fs : Z) : Q :=
  match rs with
  | Some q => if Qeq_bool q 0 then inject_Z fs else q
  | None => inject_Z fs
  end.

(** What [update_tuned_freq_cache] stores for a non-zero step [fs]. *)
Definition planned_centers (mn : Q) (fs : Z) (sp : Q) : list Q :=
  let min_fc := mn + inject_Z fs / 2 in
  if Qle_bool sp (inject_Z fs) then [min_fc]
  else
    let max_fc := min_fc + inject_Z (floor (sp / inject_Z fs)) * inject_Z fs in
    map (fun i => min_fc + inject_Z (Z.of_nat i) * inject_Z fs)
      (seq 0 (Z.to_nat (Qceiling ((max_fc + 1 - min_fc) / inject_Z fs)))).

(** The number of segments for a positive step. *)
Definition segment_count (fs : Z) (sp : Q) : nat :=
  if Qle_bool sp (inject_Z fs) then 1%nat
  else S (Z.to_nat (floor (sp / inject_Z fs))).

(** What [update_bin_freq_cache] stores for a non-zero bin width [d]. *)
Definition planned_bins (mn max_bin_freq d : Q) : list Q :=
  map (fun i => mn + inject_Z (Z.of_nat i) * d)
    (seq 0 (Z.to_nat (Qceiling ((max_bin_freq - mn) / d)))).

(** The object after a run of [update] that returns, from the parameters of
    [c], the step [fs] that [adjust_rate] gave, the last center [last] and
    the index [i] that [find_nearest] gave. *)
Definition planned (c : configuration) (fs : Z) (last : Q) (i : Z) : configuration :=
  let d := bin_width c in
  let sp := effective_span (requested_span c) fs in
  let mn := center_freq c - sp / 2 + d / 2 in
  let cfs := planned_centers mn fs sp in
  let b0 := int (inject_Z (fft_size c) * (overlap c / 2)) in
  let b1 := (fft_size c - b0)%Z in
  mk_configuration (sample_rate c) (fft_size c) (overlap c) (center_freq c)
    (requested_span c) (Some sp) (Some d) (Some fs) (Some mn)
    (Some (mn + sp - d)) (Some cfs) (Some (Z.of_nat (List.length cfs)))
    (Some (planned_bins mn (last + inject_Z fs / 2) d))
    (Some b0) (Some b1) (Some (inject_Z (b1 - b0) / 2)) (Some (i + 1)%Z).

(** [c'] has the command-line attributes of [c] and its [deltaf]. *)
Definition keeps (c c' : configuration) : Prop :=
  same_params c c' /\ deltaf c' = deltaf c.

(** [c'] has the two attributes of [c] that [update] assigns last. *)
Definition keeps_last (c c' : configuration) : Prop :=
  max_plotted_bin c' = max_plotted_bin c /\ bin_offset c' = bin_offset c.

(** A method relates the object before to the object after by [R],
    however it ends; or when it raises. *)
Definition preserves {A} (R : configuration -> configuration -> Prop)
    (m : method A) : Prop :=
  forall c, R c (snd (m c)).

Definition preserves_on_raise {A} (R : configuration -> configuration -> Prop)
    (m : method A) : Prop :=
  forall c e c', m c = (Raised e, c') -> R c c'.

(** *** The claims on the plan, as the specification states them *)

(** Segment centers: [update] returns and leaves at least one center, the
    centers strictly increasing and spaced by exactly [freq_step], one
    center when the span is at most one step, and for no requested span the
    span is one step and the one center is [min_freq + freq_step / 2]. *)
Definition centers_as_claimed (c : configuration) : Prop :=
  exists c' fs sp mn cfs,
    update c = (Returned tt, c') /\
    freq_step c' = Some fs /\ span c' = Some sp /\ min_freq c' = Some mn /\
    center_freqs c' = Some cfs /\
    n_segments c' = Some (Z.of_nat (List.length cfs)) /\
    (1 <= List.length cfs)%nat /\
    strictly_increasing cfs /\ stepped (inject_Z fs) cfs /\
    (sp <= inject_Z fs -> List.length cfs = 1%nat) /\
    (requested_span c = None ->
     sp == inject_Z fs /\ cfs = [mn + inject_Z fs / 2]).


(** [m] is one more than the index of the entry of [bfs] closest to [mx],
    the lowest such index on a tie. *)
Definition nearest_plus_one (bfs : list Q) (mx : Q) (m : Z) : Prop :=
  (1 <= m)%Z /\
  (forall j, (j < List.length bfs)%nat ->
     Qabs (nth (Z.to_nat (m - 1)) bfs 0 - mx) <= Qabs (nth j bfs 0 - mx)) /\
  (forall j, (j < Z.to_nat (m - 1))%nat ->
     Qabs (nth (Z.to_nat (m - 1)) bfs 0 - mx) < Qabs (nth j bfs 0 - mx)).

(** Plotted range: [update] returns and [max_plotted_bin] is one more than
    the index of the bin nearest [max_freq], and below [bound]. *)
Definition max_plotted_bin_below (bound : list Q -> Z -> Prop)
    (c : configuration) : Prop :=
  exists c' bfs mx m,
    update c = (Returned tt, c') /\
    bin_freqs c' = Some bfs /\ max_freq c' = Some mx /\
    max_plotted_bin c' = Some m /\
    nearest_plus_one bfs mx m /\
    bound bfs m.

(** The bound as the specification states it, and the bound of a slice. *)
Definition strictly_inside (bfs : list Q) (m : Z) : Prop :=
  (m < Z.of_nat (List.length bfs))%Z.

Definition slice_in_bounds (bfs : list Q) (m : Z) : Prop :=
  (m <= Z.of_nat (List.length bfs))%Z.

(** The object with the plan of the command line [700M -F 32 --span 100M]
    after the overlap is changed from 25 % to 99 %, before [update] runs
    again. *)
Definition overlap_edited : configuration :=
  set_overlap_attr (99 # 100)
    (snd (init 10000000 32 25 700000000 (Some 100000000))).

(** The object as [__init__] leaves it before [update], for the default
    command line [700M] (10 MHz sample rate, 1024 bins, 25 % overlap). *)
Definition default_attrs : configuration :=
  init_attrs 10000000 1024 25 700000000 None.

End Props.

(** ** A run of update with the reads resolved *)

Module Run.
Import Configuration Props.

(** The centers that [update_tuned_freq_cache] computes from [min_freq],
    [freq_step] and [span], or the exception of the division or of
    [np.arange]. *)
Definition centers_of (mn : Q) (fs : Z) (sp : Q) : outcome (list Q) :=
  let min_fc := mn + inject_Z fs / 2 in
  if Qle_bool sp (inject_Z fs) then Returned [min_fc]
  else
    match truediv sp (inject_Z fs) with
    | Returned q =>
        let max_fc := min_fc + inject_Z (floor q) * inject_Z fs in
        arange min_fc (max_fc + 1) (inject_Z fs)
    | Raised e => Raised e
    end.

(** [update] as one expression: every attribute it reads was either given on
    the command line or assigned earlier in the same run, so the run is a
    cascade on the expressions that may raise. *)
Definition update_nf (c : configuration) : outcome unit * configuration :=
  if (fft_size c =? 0)%Z then (Raised ZeroDivisionError, c)
  else
    let d := bin_width c in
    let c1 := set_deltaf d c in
    match adjust_rate (sample_rate c) d (overlap c) with
    | Raised e => (Raised e, c1)
    | Returned fs =>
        let sp := effective_span (requested_span c) fs in
        let mn := center_freq c - sp / 2 + d / 2 in
        let mx := mn + sp - d in
        let c4 := set_max_freq mx
                    (set_min_freq mn (set_span sp (set_freq_step fs c1))) in
        match centers_of mn fs sp with
        | Raised e => (Raised e, c4)
        | Returned cfs =>
            let c5 := set_n_segments (Z.of_nat (List.length cfs))
                        (set_center_freqs cfs c4) in
            match last_item cfs with
            | Raised e => (Raised e, c5)
            | Returned last =>
                match arange mn (last + inject_Z fs / 2) d with
                | Raised e => (Raised e, c5)
                | Returned bfs =>
                    let b0 := int (inject_Z (fft_size c) * (overlap c / 2)) in
                    let b1 := (fft_size c - b0)%Z in
                    let c7 := set_bin_stop b1
                                (set_bin_start b0 (set_bin_freqs bfs c5)) in
                    match Utils.find_nearest bfs mx with
                    | Raised e => (Raised e, c7)
                    | Returned i =>
                        (Returned tt,
                         set_bin_offset (inject_Z (b1 - b0) / 2)
                           (set_max_plotted_bin (i + 1) c7))
                    end
                end
            end
        end
    end.

(** The object after a run of [update] that returned, from the parameters of
    [c] and the values that the expressions of the cascade gave. *)
Definition planned_with (c : configuration) (fs : Z) (cfs bfs : list Q)
    (i : Z) : configuration :=
  let d := bin_width c in
  let sp := effective_span (requested_span c) fs in
  let mn := center_freq c - sp / 2 + d / 2 in
  let b0 := int (inject_Z (fft_size c) * (overlap c / 2)) in
  let b1 := (fft_size c - b0)%Z in
  mk_configuration (sample_rate c) (fft_size c) (overlap c) (center_freq c)
    (requested_span c) (Some sp) (Some d) (Some fs) (Some mn)
    (Some (mn + sp - d)) (Some cfs) (Some (Z.of_nat (List.length cfs)))
    (Some bfs) (Some b0) (Some b1) (Some (inject_Z (b1 - b0) / 2))
    (Some (i + 1)%Z).

(** [f] lies in the window of usable bandwidth [fs] around the center [fc]. *)
Definition in_window (fs : Z) (fc f : Q) : Prop :=
  fc - inject_Z fs / 2 <= f /\ f < fc + inject_Z fs / 2.

End Run.

(** ** Facts about the primitives *)

Module PyFacts.

Lemma Qfloor_unique (x : Q) (z : Z) :
  inject_Z z <= x -> x < inject_Z z + 1 -> Qfloor x = z.
Proof.
  intros Hlo Hhi.
  assert (H1 : inject_Z z < inject_Z (Qfloor x + 1)).
  { eapply Qle_lt_trans; [exact Hlo | apply Qlt_floor]. }
  assert (H2 : inject_Z (Qfloor x) < inject_Z (z + 1)).
  { rewrite inject_Z_plus. eapply Qle_lt_trans; [apply Qfloor_le | exact Hhi]. }
  rewrite <- Zlt_Qlt in H1, H2. lia.
Qed.

Lemma Qceiling_unique (x : Q) (z : Z) :
  inject_Z z - 1 < x -> x <= inject_Z z -> Qceiling x = z.
Proof.
  intros Hlo Hhi.
  assert (H1 : inject_Z (Qceiling x - 1) < inject_Z z).
  { eapply Qlt_le_trans; [apply Qceiling_lt | exact Hhi]. }
  assert (H2 : inject_Z (z - 1) < inject_Z (Qceiling x)).
  { unfold Z.sub. rewrite inject_Z_plus.
    eapply Qlt_le_trans; [exact Hlo | apply Qle_ceiling]. }
  rewrite <- Zlt_Qlt in H1, H2. lia.
Qed.

(** [lra] does not read [x / 2]; it reads [x * (1 # 2)]. *)
Ltac halves := unfold Qdiv in *; change (/ 2) with (1 # 2) in *.

Lemma Qle_bool_false (x y : Q) : Qle_bool x y = false <-> y < x.
Proof.
  split; intro H.
  - apply Qnot_le_lt. intro Hle. apply Qle_bool_iff in Hle. congruence.
  - destruct (Qle_bool x y) eqn:E; [| reflexivity].
    apply Qle_bool_iff in E. exfalso. exact (Qlt_not_le _ _ H E).
Qed.

Lemma Qeq_bool_false (x y : Q) : Qeq_bool x y = false <-> ~ x == y.
Proof.
  split; intro H.
  - apply Qeq_bool_neq. exact H.
  - destruct (Qeq_bool x y) eqn:E; [| reflexivity].
    apply Qeq_bool_iff in E. contradiction.
Qed.

(** [int] on a non-negative float is the floor. *)
Lemma int_nonneg (x : Q) : 0 <= x -> int x = Qfloor x.
Proof.
  intro H. unfold int. apply Qle_bool_iff in H. now rewrite H.
Qed.

Lemma int_Qeq (x y : Q) : x == y -> int x = int y.
Proof.
  intro H. unfold int.
  rewrite (Qleb_comp 0 0 (Qeq_refl 0) x y H).
  now rewrite (Qfloor_comp x y H), (Qceiling_comp x y H).
Qed.

Lemma int_Z (z : Z) : int (inject_Z z) = z.
Proof.
  unfold int. destruct (Qle_bool 0 (inject_Z z)); [apply Qfloor_Z | apply Qceiling_Z].
Qed.

Lemma int_bounds_nonneg (x : Q) :
  0 <= x -> inject_Z (int x) <= x /\ x < inject_Z (int x) + 1 /\ (0 <= int x)%Z.
Proof.
  intro H. rewrite (int_nonneg x H). repeat split.
  - apply Qfloor_le.
  - rewrite <- (inject_Z_plus _ 1). apply Qlt_floor.
  - change 0%Z with (Qfloor 0). now apply Qfloor_resp_le.
Qed.

(** [round] gives an integer nearest to its argument. *)
Lemma round_nearest (x : Q) : Qabs (inject_Z (round x) - x) <= 1 # 2.
Proof.
  unfold round. apply Qabs_Qle_condition.
  destruct (Qle_bool 0 x).
  - pose proof (Qfloor_le (x + (1 # 2))) as H1.
    pose proof (Qlt_floor (x + (1 # 2))) as H2.
    rewrite inject_Z_plus in H2. change (inject_Z 1) with 1 in H2.
    split; lra.
  - pose proof (Qle_ceiling (x - (1 # 2))) as H1.
    pose proof (Qceiling_lt (x - (1 # 2))) as H2.
    unfold Z.sub in H2. rewrite inject_Z_plus in H2.
    change (inject_Z (- (1))) with (- (1)) in H2.
    split; lra.
Qed.

Lemma round_nonneg (x : Q) : 0 <= x -> (0 <= round x)%Z.
Proof.
  intro H. unfold round. apply Qle_bool_iff in H as Hb. rewrite Hb.
  change 0%Z with (Qfloor 0). apply Qfloor_resp_le. lra.
Qed.

Lemma truediv_returned (a b : Q) : ~ b == 0 -> truediv a b = Returned (a / b).
Proof.
  intro H. unfold truediv. apply Qeq_bool_false in H. now rewrite H.
Qed.

Lemma truediv_zero (a b : Q) : b == 0 -> truediv a b = Raised ZeroDivisionError.
Proof.
  intro H. unfold truediv. apply Qeq_bool_iff in H. now rewrite H.
Qed.

Lemma arange_returned (start stop step : Q) :
  ~ step == 0 ->
  arange start stop step =
    Returned (map (fun i => start + inject_Z (Z.of_nat i) * step)
                (seq 0 (Z.to_nat (Qceiling ((stop - start) / step))))).
Proof.
  intro H. unfold arange. apply Qeq_bool_false in H. now rewrite H.
Qed.

Lemma last_item_map_seq (f : nat -> Q) (n : nat) :
  last_item (map f (seq 0 (S n))) = Returned (f n).
Proof.
  unfold last_item. rewrite seq_S, map_app, rev_app_distr. reflexivity.
Qed.

End PyFacts.

(** ** Facts about find_nearest *)

Module UtilsFacts.
Import Utils.

(** The invariant of the left-to-right scan: [pre] has been seen, its
    first minimum is [b] at index [bi]. *)
Lemma argmin_from_spec (l pre : list Q) (bi : nat) (b : Q) :
  (bi < List.length pre)%nat ->
  nth bi pre 0 = b ->
  (forall j, (j < List.length pre)%nat -> b <= nth j pre 0) ->
  (forall j, (j < bi)%nat -> b < nth j pre 0) ->
  let r := argmin_from bi b (List.length pre) l in
  (r < List.length (pre ++ l))%nat /\
  (forall j, (j < List.length (pre ++ l))%nat ->
             nth r (pre ++ l) 0 <= nth j (pre ++ l) 0) /\
  (forall j, (j < r)%nat -> nth r (pre ++ l) 0 < nth j (pre ++ l) 0).
Proof.
  revert pre bi b.
  induction l as [| x l IH]; intros pre bi b Hbi Hb Hmin Hfirst; cbn zeta.
  - cbn [argmin_from]. rewrite app_nil_r. subst b. auto.
  - cbn [argmin_from].
    assert (Hlen : List.length (pre ++ [x]) = S (List.length pre)).
    { rewrite length_app. cbn. lia. }
    replace (pre ++ x :: l) with ((pre ++ [x]) ++ l)
      by (rewrite <- app_assoc; reflexivity).
    destruct (Qle_bool b x) eqn:E.
    + apply Qle_bool_iff in E. rewrite <- Hlen.
      apply IH.
      * rewrite Hlen. lia.
      * rewrite app_nth1 by exact Hbi. exact Hb.
      * intros j Hj. rewrite Hlen in Hj.
        destruct (Nat.eq_dec j (List.length pre)) as [-> | Hne].
        -- rewrite app_nth2, Nat.sub_diag by lia. exact E.
        -- rewrite app_nth1 by lia. apply Hmin. lia.
      * intros j Hj. rewrite app_nth1 by lia. now apply Hfirst.
    + apply PyFacts.Qle_bool_false in E. rewrite <- Hlen.
      apply IH.
      * rewrite Hlen. lia.
      * rewrite app_nth2, Nat.sub_diag by lia. reflexivity.
      * intros j Hj. rewrite Hlen in Hj.
        destruct (Nat.eq_dec j (List.length pre)) as [-> | Hne].
        -- rewrite app_nth2, Nat.sub_diag by lia. apply Qle_refl.
        -- rewrite app_nth1 by lia. apply Qlt_le_weak.
           eapply Qlt_le_trans; [exact E | apply Hmin; lia].
      * intros j Hj. rewrite app_nth1 by lia.
        eapply Qlt_le_trans; [exact E | apply Hmin; lia].
Qed.

(** On a non-empty array [find_nearest] returns an index of the array whose
    entry is at least as close to the value as every entry, and strictly
    closer than every entry before it. *)
Lemma find_nearest_spec (array : list Q) (value : Q) :
  array <> [] ->
  exists r : nat,
    find_nearest array value = Returned (Z.of_nat r) /\
    (r < List.length array)%nat /\
    (forall j, (j < List.length array)%nat ->
       Qabs (nth r array 0 - value) <= Qabs (nth j array 0 - value)) /\
    (forall j, (j < r)%nat ->
       Qabs (nth r array 0 - value) < Qabs (nth j array 0 - value)).
Proof.
  intro Hne. destruct array as [| a rest]; [congruence |].
  unfold find_nearest. cbn [map].
  set (dist := fun a0 : Q => Qabs (a0 - value)).
  pose proof (argmin_from_spec (map dist rest) [dist a] 0 (dist a)) as H.
  cbn [List.length app] in H.
  destruct H as (Hr & Hmin & Hfirst).
  - lia.
  - reflexivity.
  - intros j Hj. replace j with 0%nat by lia. apply Qle_refl.
  - intros j Hj. lia.
  - set (r := argmin_from 0 (dist a) 1 (map dist rest)) in *.
    exists r.
    change (dist a :: map dist rest) with (map dist (a :: rest)) in *.
    rewrite length_map in Hr.
    assert (Hnth : forall k, (k < List.length (a :: rest))%nat ->
              nth k (map dist (a :: rest)) 0 = dist (nth k (a :: rest) 0)).
    { intros k Hk. rewrite (nth_indep _ 0 (dist 0)) by (rewrite length_map; exact Hk).
      apply map_nth. }
    repeat split.
    + exact Hr.
    + intros j Hj.
      change (dist (nth r (a :: rest) 0) <= dist (nth j (a :: rest) 0)).
      rewrite <- !Hnth by (cbn [List.length] in *; lia).
      apply Hmin. rewrite length_map. exact Hj.
    + intros j Hj.
      change (dist (nth r (a :: rest) 0) < dist (nth j (a :: rest) 0)).
      rewrite <- !Hnth by (cbn [List.length] in *; lia). now apply Hfirst.
Qed.

End UtilsFacts.

(** ** The steps of update, one by one *)

Module StepFacts.
Import Configuration Props PyFacts.
Local Open Scope method_scope.

Lemma bind_returned {A B} (m : method A) (k : A -> method B) c a c1 :
  m c = (Returned a, c1) -> bind m k c = k a c1.
Proof. intro H. unfold bind. now rewrite H. Qed.

Lemma bind_raised {A B} (m : method A) (k : A -> method B) c e c1 :
  m c = (Raised e, c1) -> bind m k c = (Raised e, c1).
Proof. intro H. unfold bind. now rewrite H. Qed.

Lemma bind_inv {A B} (m : method A) (k : A -> method B) c o c' :
  bind m k c = (o, c') ->
  (exists e, m c = (Raised e, c') /\ o = Raised e) \/
  (exists a c1, m c = (Returned a, c1) /\ k a c1 = (o, c')).
Proof.
  unfold bind. destruct (m c) as [[a | e] c1]; intro H.
  - right. eauto.
  - left. inversion H; subst. eauto.
Qed.

Lemma inject_Z_eq0 (n : Z) : inject_Z n == 0 <-> n = 0%Z.
Proof. change 0 with (inject_Z 0). apply inject_Z_injective. Qed.

(** [update_deltaf] raises exactly when [fft_size] is 0, leaving the object
    as it was; otherwise it assigns [deltaf] and nothing else. *)
Lemma update_deltaf_run (c : configuration) :
  update_deltaf c =
    if (fft_size c =? 0)%Z then (Raised ZeroDivisionError, c)
    else (Returned tt, set_deltaf (sample_rate c / inject_Z (fft_size c)) c).
Proof.
  unfold update_deltaf, bind, attr, eval, assign.
  destruct (Z.eqb_spec (fft_size c) 0) as [E | E].
  - rewrite truediv_zero; [reflexivity | now apply inject_Z_eq0].
  - rewrite truediv_returned; [reflexivity | now rewrite inject_Z_eq0].
Qed.

(** Reading an attribute of an object on which attributes were assigned. *)
Ltac attrs :=
  cbv beta iota delta
      [set_fft_size_attr set_overlap_attr set_span set_deltaf set_freq_step set_min_freq
       set_max_freq set_center_freqs set_n_segments set_bin_freqs
       set_bin_start set_bin_stop set_bin_offset set_max_plotted_bin];
  cbn [sample_rate fft_size overlap center_freq requested_span span deltaf
       freq_step min_freq max_freq center_freqs n_segments bin_freqs
       bin_start bin_stop bin_offset max_plotted_bin].

Ltac unfold_method :=
  unfold bind, attr, read, eval, assign, ret.

(** *** What the steps leave alone *)

Lemma preserves_bind {A B} (R : configuration -> configuration -> Prop)
    (m : method A) (k : A -> method B) :
  (forall x y z, R x y -> R y z -> R x z) ->
  preserves R m -> (forall a, preserves R (k a)) ->
  preserves R (bind m k).
Proof.
  intros Htrans Hm Hk c. unfold bind.
  specialize (Hm c). destruct (m c) as [[a | e] c1]; cbn [snd] in *.
  - eapply Htrans; [exact Hm | apply Hk].
  - exact Hm.
Qed.

Lemma preserves_on_raise_bind {A B} (R : configuration -> configuration -> Prop)
    (m : method A) (k : A -> method B) :
  (forall x y z, R x y -> R y z -> R x z) ->
  preserves R m -> (forall a, preserves_on_raise R (k a)) ->
  preserves_on_raise R (bind m k).
Proof.
  intros Htrans Hm Hk c e c' H. apply bind_inv in H.
  destruct H as [(e' & H & _) | (a & c1 & H & Hk')].
  - specialize (Hm c). rewrite H in Hm. exact Hm.
  - specialize (Hm c). rewrite H in Hm. cbn [snd] in Hm.
    eapply Htrans; [exact Hm | eapply Hk; exact Hk'].
Qed.

Lemma keeps_trans (x y z : configuration) : keeps x y -> keeps y z -> keeps x z.
Proof.
  unfold keeps, same_params.
  intros ((A1 & A2 & A3 & A4 & A5) & A6) ((B1 & B2 & B3 & B4 & B5) & B6).
  repeat split; congruence.
Qed.

Lemma keeps_last_trans (x y z : configuration) :
  keeps_last x y -> keeps_last y z -> keeps_last x z.
Proof.
  unfold keeps_last. intros (A1 & A2) (B1 & B2). split; congruence.
Qed.

(** Run a step by cases on every attribute it reads and every expression
    in it that may raise, innermost first. *)
Ltac run_cases :=
  unfold_method; attrs;
  repeat (match goal with
          | |- context [match ?x with _ => _ end] =>
              lazymatch x with
              | context [match _ with _ => _ end] => fail
              | _ => destruct x eqn:?
              end
          end; attrs).

Ltac solve_kept :=
  intro c; unfold keeps, keeps_last, same_params;
  run_cases; cbn [snd]; attrs; repeat split; congruence.

Lemma update_freq_step_keeps : preserves keeps update_freq_step.
Proof. unfold update_freq_step. solve_kept. Qed.

Lemma update_span_keeps : preserves keeps update_span.
Proof. unfold update_span, truthy. solve_kept. Qed.

Lemma update_min_max_freq_keeps : preserves keeps update_min_max_freq.
Proof. unfold update_min_max_freq. solve_kept. Qed.

Lemma update_tuned_freq_cache_keeps : preserves keeps update_tuned_freq_cache.
Proof. unfold update_tuned_freq_cache. solve_kept. Qed.

Lemma update_bin_freq_cache_keeps : preserves keeps update_bin_freq_cache.
Proof. unfold update_bin_freq_cache. solve_kept. Qed.

Lemma update_bin_indices_keeps : preserves keeps update_bin_indices.
Proof. unfold update_bin_indices. solve_kept. Qed.

Lemma update_deltaf_keeps_last : preserves keeps_last update_deltaf.
Proof. unfold update_deltaf. solve_kept. Qed.

Lemma update_freq_step_keeps_last : preserves keeps_last update_freq_step.
Proof. unfold update_freq_step. solve_kept. Qed.

Lemma update_span_keeps_last : preserves keeps_last update_span.
Proof. unfold update_span, truthy. solve_kept. Qed.

Lemma update_min_max_freq_keeps_last : preserves keeps_last update_min_max_freq.
Proof. unfold update_min_max_freq. solve_kept. Qed.

Lemma update_tuned_freq_cache_keeps_last :
  preserves keeps_last update_tuned_freq_cache.
Proof. unfold update_tuned_freq_cache. solve_kept. Qed.

Lemma update_bin_freq_cache_keeps_last :
  preserves keeps_last update_bin_freq_cache.
Proof. unfold update_bin_freq_cache. solve_kept. Qed.

(** [update_bin_indices] assigns [max_plotted_bin] and [bin_offset] only
    after the last expression in it that may raise. *)
Lemma update_bin_indices_keeps_last_on_raise :
  preserves_on_raise keeps_last update_bin_indices.
Proof.
  intros c e c'. unfold update_bin_indices, keeps_last. run_cases;
    intro H; inversion H; subst; attrs; split; congruence.
Qed.

(** The steps of [update] after [update_deltaf]. *)
Lemma update_tail_keeps :
  preserves keeps
    (update_freq_step ;; update_span ;; update_min_max_freq ;;
     update_tuned_freq_cache ;; update_bin_freq_cache ;; update_bin_indices).
Proof.
  repeat (apply preserves_bind; [exact keeps_trans | | intros _]).
  - exact update_freq_step_keeps.
  - exact update_span_keeps.
  - exact update_min_max_freq_keeps.
  - exact update_tuned_freq_cache_keeps.
  - exact update_bin_freq_cache_keeps.
  - exact update_bin_indices_keeps.
Qed.

Lemma update_tail_keeps_last_on_raise :
  preserves_on_raise keeps_last
    (update_freq_step ;; update_span ;; update_min_max_freq ;;
     update_tuned_freq_cache ;; update_bin_freq_cache ;; update_bin_indices).
Proof.
  repeat (apply preserves_on_raise_bind; [exact keeps_last_trans | | intros _]).
  - exact update_freq_step_keeps_last.
  - exact update_span_keeps_last.
  - exact update_min_max_freq_keeps_last.
  - exact update_tuned_freq_cache_keeps_last.
  - exact update_bin_freq_cache_keeps_last.
  - exact update_bin_indices_keeps_last_on_raise.
Qed.

(** How a run of [update] starts: either [fft_size] is 0 and it raises at
    once, or [deltaf] is assigned and the other steps run. *)
Lemma update_inv (c : configuration) (o : outcome unit) (c' : configuration) :
  update c = (o, c') ->
  (fft_size c = 0%Z /\ o = Raised ZeroDivisionError /\ c' = c) \/
  (fft_size c <> 0%Z /\
   (update_freq_step ;; update_span ;; update_min_max_freq ;;
    update_tuned_freq_cache ;; update_bin_freq_cache ;; update_bin_indices)
     (set_deltaf (sample_rate c / inject_Z (fft_size c)) c) = (o, c')).
Proof.
  unfold update. intro H. apply bind_inv in H.
  rewrite update_deltaf_run in H.
  destruct (Z.eqb_spec (fft_size c) 0) as [E | E].
  - left. destruct H as [(e & H & ->) | (a & c1 & H & _)].
    + inversion H; subst. auto.
    + discriminate H.
  - right. destruct H as [(e & H & _) | (a & c1 & H & Hk)].
    + discriminate H.
    + inversion H; subst. auto.
Qed.

Lemma FFT_SIZES_pos (size : Z) :
  contains Consts.FFT_SIZES size = true -> (0 < size)%Z.
Proof.
  unfold contains. intro H. apply existsb_exists in H.
  destruct H as (x & Hin & Heq). apply Z.eqb_eq in Heq. subst x.
  cbn in Hin. intuition lia.
Qed.

Lemma update_freq_step_run (c : configuration) (d : Q) (fs : Z) :
  deltaf c = Some d ->
  adjust_rate (sample_rate c) d (overlap c) = Returned fs ->
  update_freq_step c = (Returned tt, set_freq_step fs c).
Proof.
  intros Hd Hfs. unfold update_freq_step. unfold_method.
  rewrite Hd, Hfs. reflexivity.
Qed.

Lemma update_span_run (c : configuration) (fs : Z) :
  freq_step c = Some fs ->
  update_span c =
    (Returned tt, set_span (effective_span (requested_span c) fs) c).
Proof.
  intro Hfs. unfold update_span, effective_span, truthy. unfold_method.
  destruct (requested_span c) as [q |].
  - destruct (Qeq_bool q 0); cbn [negb]; rewrite ?Hfs; reflexivity.
  - rewrite Hfs. reflexivity.
Qed.

Lemma update_min_max_freq_run (c : configuration) (sp d : Q) :
  span c = Some sp ->
  deltaf c = Some d ->
  update_min_max_freq c =
    (Returned tt,
     set_max_freq (center_freq c - sp / 2 + d / 2 + sp - d)
       (set_min_freq (center_freq c - sp / 2 + d / 2) c)).
Proof.
  intros Hsp Hd. unfold update_min_max_freq. unfold_method.
  rewrite Hsp, Hd. attrs. rewrite Hsp, Hd. reflexivity.
Qed.

Lemma update_tuned_freq_cache_run (c : configuration) (mn sp : Q) (fs : Z) :
  min_freq c = Some mn ->
  freq_step c = Some fs ->
  span c = Some sp ->
  fs <> 0%Z ->
  update_tuned_freq_cache c =
    (Returned tt,
     set_n_segments (Z.of_nat (List.length (planned_centers mn fs sp)))
       (set_center_freqs (planned_centers mn fs sp) c)).
Proof.
  intros Hmn Hfs Hsp Hnz.
  assert (Hq : ~ inject_Z fs == 0) by now rewrite inject_Z_eq0.
  unfold update_tuned_freq_cache, planned_centers. unfold_method.
  repeat (first [rewrite Hmn | rewrite Hfs | rewrite Hsp]; cbv beta iota).
  destruct (Qle_bool sp (inject_Z fs)).
  - reflexivity.
  - repeat (first [rewrite Hfs | rewrite Hsp]; cbv beta iota).
    rewrite (truediv_returned _ _ Hq). cbv beta iota.
    repeat (rewrite Hfs; cbv beta iota).
    rewrite (arange_returned _ _ _ Hq). reflexivity.
Qed.

Lemma update_bin_freq_cache_run (c : configuration) (cfs : list Q)
    (last mn d : Q) (fs : Z) :
  center_freqs c = Some cfs ->
  last_item cfs = Returned last ->
  freq_step c = Some fs ->
  min_freq c = Some mn ->
  deltaf c = Some d ->
  ~ d == 0 ->
  update_bin_freq_cache c =
    (Returned tt,
     set_bin_freqs (planned_bins mn (last + inject_Z fs / 2) d) c).
Proof.
  intros Hcfs Hlast Hfs Hmn Hd Hnz.
  unfold update_bin_freq_cache, planned_bins. unfold_method.
  rewrite Hcfs. cbv beta iota. rewrite Hlast. cbv beta iota.
  rewrite Hfs. cbv beta iota. rewrite Hmn. cbv beta iota.
  rewrite Hd. cbv beta iota. rewrite (arange_returned _ _ _ Hnz).
  reflexivity.
Qed.

Lemma update_bin_indices_run (c : configuration) (bfs : list Q) (mx : Q) (i : Z) :
  bin_freqs c = Some bfs ->
  max_freq c = Some mx ->
  Utils.find_nearest bfs mx = Returned i ->
  let b0 := int (inject_Z (fft_size c) * (overlap c / 2)) in
  let b1 := (fft_size c - b0)%Z in
  update_bin_indices c =
    (Returned tt,
     set_bin_offset (inject_Z (b1 - b0) / 2)
       (set_max_plotted_bin (i + 1)
          (set_bin_stop b1 (set_bin_start b0 c)))).
Proof.
  intros Hbfs Hmx Hi b0 b1.
  unfold update_bin_indices. unfold_method. attrs.
  rewrite Hbfs. cbv beta iota. attrs. rewrite Hmx. cbv beta iota.
  rewrite Hi. reflexivity.
Qed.

End StepFacts.

(** ** Arithmetic of the plan *)

Module PlanFacts.
Import Configuration Props PyFacts StepFacts.

Lemma inject_Z_pos (z : Z) : (0 < z)%Z -> 0 < inject_Z z.
Proof. intro H. change 0 with (inject_Z 0). now rewrite <- Zlt_Qlt. Qed.

Lemma inject_Z_ge1 (z : Z) : (0 < z)%Z -> 1 <= inject_Z z.
Proof.
  intro H. change 1 with (inject_Z 1). rewrite <- Zle_Qle. lia.
Qed.

Lemma inject_Z_S (n : nat) : inject_Z (Z.of_nat (S n)) == inject_Z (Z.of_nat n) + 1.
Proof. rewrite Nat2Z.inj_succ. unfold Z.succ. rewrite inject_Z_plus. reflexivity. Qed.

Lemma bin_width_pos (c : configuration) : valid_params c -> 0 < bin_width c.
Proof.
  intros (Hsr & Hn & _). unfold bin_width.
  apply Qlt_shift_div_l; [now apply inject_Z_pos | lra].
Qed.

(** With a non-zero bin width [adjust_rate] returns: the nearest whole
    number of bins times the bin width, truncated to an integer. *)
Lemma adjust_rate_returned (sr d ov : Q) :
  ~ d == 0 ->
  adjust_rate sr d ov =
    Returned (int (inject_Z (round (sr * (1 - ov) / d)) * d)).
Proof.
  intro H. unfold adjust_rate. now rewrite (truediv_returned _ _ H).
Qed.

Lemma usable_bandwidth_returned (c : configuration) :
  valid_params c ->
  exists fs, usable_bandwidth c = Returned fs /\ (0 <= fs)%Z.
Proof.
  intro Hv. pose proof (bin_width_pos c Hv) as Hd.
  destruct Hv as (Hsr & Hn & _ & Hov0 & Hov1).
  unfold usable_bandwidth. rewrite adjust_rate_returned by lra.
  eexists. split; [reflexivity |].
  apply int_bounds_nonneg.
  apply Qmult_le_0_compat; [| lra].
  change 0 with (inject_Z 0). rewrite <- Zle_Qle.
  apply round_nonneg.
  apply Qle_shift_div_l; [exact Hd |].
  assert (0 <= sample_rate c * (1 - overlap c)) by (apply Qmult_le_0_compat; lra).
  lra.
Qed.

(** *** Segment centers *)

Lemma arange_count (a : Q) (n fs : Z) :
  (0 <= n)%Z -> (0 < fs)%Z ->
  Z.to_nat (Qceiling ((a + inject_Z n * inject_Z fs + 1 - a) / inject_Z fs))
  = S (Z.to_nat n).
Proof.
  intros Hn Hfs.
  pose proof (inject_Z_pos fs Hfs) as Hpos.
  pose proof (inject_Z_ge1 fs Hfs) as Hge.
  assert (Hx : (a + inject_Z n * inject_Z fs + 1 - a) / inject_Z fs
               == inject_Z n + / inject_Z fs).
  { field. lra. }
  rewrite Hx.
  assert (Hinv0 : 0 < / inject_Z fs) by now apply Qinv_lt_0_compat.
  assert (Hinv1 : / inject_Z fs <= 1).
  { apply Qle_shift_inv_r; [exact Hpos | lra]. }
  rewrite (Qceiling_unique _ (n + 1)).
  - rewrite Z2Nat.inj_add by lia. cbn. lia.
  - rewrite inject_Z_plus. change (inject_Z 1) with 1. lra.
  - rewrite inject_Z_plus. change (inject_Z 1) with 1. lra.
Qed.

Lemma floor_quotient_nonneg (sp : Q) (fs : Z) :
  (0 < fs)%Z -> inject_Z fs < sp -> (1 <= floor (sp / inject_Z fs))%Z.
Proof.
  intros Hfs Hsp. pose proof (inject_Z_pos fs Hfs) as Hpos.
  unfold floor. change 1%Z with (Qfloor 1). apply Qfloor_resp_le.
  apply Qle_shift_div_l; [exact Hpos | lra].
Qed.

Lemma planned_centers_length (mn sp : Q) (fs : Z) :
  (0 < fs)%Z ->
  List.length (planned_centers mn fs sp) = segment_count fs sp.
Proof.
  intro Hfs. unfold planned_centers, segment_count. cbv zeta.
  destruct (Qle_bool sp (inject_Z fs)) eqn:E; [reflexivity |].
  apply Qle_bool_false in E.
  rewrite length_map, length_seq.
  apply arange_count; [| exact Hfs].
  pose proof (floor_quotient_nonneg sp fs Hfs E). lia.
Qed.

Lemma planned_centers_nth (mn sp : Q) (fs : Z) (i : nat) :
  (0 < fs)%Z ->
  (i < segment_count fs sp)%nat ->
  nth i (planned_centers mn fs sp) 0
  == mn + inject_Z fs / 2 + inject_Z (Z.of_nat i) * inject_Z fs.
Proof.
  intros Hfs Hi.
  pose proof (planned_centers_length mn sp fs Hfs) as Hlen.
  unfold planned_centers, segment_count in *. cbv zeta in *.
  destruct (Qle_bool sp (inject_Z fs)) eqn:E.
  - replace i with 0%nat by lia. cbn [nth Z.of_nat]. ring.
  - rewrite length_map, length_seq in Hlen.
    set (f := fun i0 : nat =>
                mn + inject_Z fs / 2 + inject_Z (Z.of_nat i0) * inject_Z fs).
    rewrite (nth_indep _ 0 (f 0%nat)) by (rewrite length_map, length_seq; lia).
    rewrite map_nth, seq_nth by lia. reflexivity.
Qed.

Lemma planned_centers_last (mn sp : Q) (fs : Z) :
  (0 < fs)%Z ->
  exists last,
    last_item (planned_centers mn fs sp) = Returned last /\
    last == mn + inject_Z fs / 2
            + inject_Z (Z.of_nat (segment_count fs sp - 1)) * inject_Z fs.
Proof.
  intro Hfs.
  pose proof (planned_centers_length mn sp fs Hfs) as Hlen.
  unfold planned_centers, segment_count in *. cbv zeta in *.
  destruct (Qle_bool sp (inject_Z fs)) eqn:E.
  - eexists. split; [reflexivity |]. cbn. ring.
  - rewrite length_map, length_seq in Hlen. rewrite Hlen.
    rewrite last_item_map_seq. eexists. split; [reflexivity |].
    cbn [Nat.sub]. rewrite Nat.sub_0_r. reflexivity.
Qed.

(** *** Bin frequencies *)

Lemma planned_bins_length (mn ub d : Q) :
  List.length (planned_bins mn ub d) = Z.to_nat (Qceiling ((ub - mn) / d)).
Proof. unfold planned_bins. now rewrite length_map, length_seq. Qed.

Lemma planned_bins_nth (mn ub d : Q) (i : nat) :
  (i < List.length (planned_bins mn ub d))%nat ->
  nth i (planned_bins mn ub d) 0 = mn + inject_Z (Z.of_nat i) * d.
Proof.
  intro Hi. rewrite planned_bins_length in Hi. unfold planned_bins.
  set (f := fun i0 : nat => mn + inject_Z (Z.of_nat i0) * d).
  rewrite (nth_indep _ 0 (f 0%nat)) by (rewrite length_map, length_seq; lia).
  rewrite map_nth, seq_nth by lia. reflexivity.
Qed.

Lemma planned_bins_nonempty (mn ub d : Q) :
  0 < d -> mn < ub -> (1 <= List.length (planned_bins mn ub d))%nat.
Proof.
  intros Hd Hub. rewrite planned_bins_length.
  assert (Hx : 0 < (ub - mn) / d).
  { apply Qlt_shift_div_l; [exact Hd | lra]. }
  pose proof (Qle_ceiling ((ub - mn) / d)) as Hc.
  assert (H0 : inject_Z 0 < inject_Z (Qceiling ((ub - mn) / d))).
  { change (inject_Z 0) with 0. lra. }
  rewrite <- Zlt_Qlt in H0. lia.
Qed.





End PlanFacts.

(** ** A run of update on valid parameters with a positive step *)

Module UpdateFacts.
Import Configuration Props PyFacts StepFacts PlanFacts.

Lemma update_returns (c : configuration) (fs : Z) :
  valid_params c ->
  usable_bandwidth c = Returned fs ->
  (0 < fs)%Z ->
  let d := bin_width c in
  let sp := effective_span (requested_span c) fs in
  let mn := center_freq c - sp / 2 + d / 2 in
  exists (last : Q) (r : nat),
    update c = (Returned tt, planned c fs last (Z.of_nat r)) /\
    last_item (planned_centers mn fs sp) = Returned last /\
    last == mn + inject_Z fs / 2
            + inject_Z (Z.of_nat (segment_count fs sp - 1)) * inject_Z fs /\
    let bfs := planned_bins mn (last + inject_Z fs / 2) d in
    (r < List.length bfs)%nat /\
    (forall j, (j < List.length bfs)%nat ->
       Qabs (nth r bfs 0 - (mn + sp - d)) <= Qabs (nth j bfs 0 - (mn + sp - d))) /\
    (forall j, (j < r)%nat ->
       Qabs (nth r bfs 0 - (mn + sp - d)) < Qabs (nth j bfs 0 - (mn + sp - d))).
Proof.
  intros Hv Hfs Hpos d sp mn.
  pose proof (bin_width_pos c Hv) as Hd. fold d in Hd.
  pose proof (inject_Z_pos fs Hpos) as HF.
  destruct (planned_centers_last mn sp fs Hpos) as (last & Hlast & Hlast_eq).
  set (bfs := planned_bins mn (last + inject_Z fs / 2) d).
  assert (Hne : bfs <> []).
  { assert (H1 : (1 <= List.length bfs)%nat).
    { apply planned_bins_nonempty; [exact Hd |].
      assert (0 <= inject_Z (Z.of_nat (segment_count fs sp - 1)) * inject_Z fs).
      { apply Qmult_le_0_compat; [| lra].
        change 0 with (inject_Z 0). rewrite <- Zle_Qle. lia. }
      clear - H Hlast_eq HF. halves. lra. }
    intro E. rewrite E in H1. cbn in H1. lia. }
  destruct (UtilsFacts.find_nearest_spec bfs (mn + sp - d) Hne)
    as (r & Hr & Hlt & Hmin & Hfirst).
  exists last, r.
  split; [| split; [exact Hlast | split; [exact Hlast_eq | repeat split; assumption]]].
  destruct Hv as (Hsr & Hn & _).
  unfold update.
  assert (S1 : update_deltaf c = (Returned tt, set_deltaf d c)).
  { rewrite update_deltaf_run.
    destruct (Z.eqb_spec (fft_size c) 0); [lia | reflexivity]. }
  rewrite (bind_returned _ _ _ _ _ S1).
  rewrite (bind_returned _ _ _ _ _
             (update_freq_step_run (set_deltaf d c) d fs eq_refl Hfs)).
  rewrite (bind_returned _ _ _ _ _
             (update_span_run (set_freq_step fs (set_deltaf d c)) fs eq_refl)).
  attrs. fold sp.
  match goal with
  | |- bind update_min_max_freq _ ?s = _ =>
      rewrite (bind_returned _ _ _ _ _
                 (update_min_max_freq_run s sp d eq_refl eq_refl))
  end.
  attrs. fold mn.
  match goal with
  | |- bind update_tuned_freq_cache _ ?s = _ =>
      rewrite (bind_returned _ _ _ _ _
                 (update_tuned_freq_cache_run s mn sp fs eq_refl eq_refl eq_refl
                    ltac:(lia)))
  end.
  attrs.
  match goal with
  | |- bind update_bin_freq_cache _ ?s = _ =>
      rewrite (bind_returned _ _ _ _ _
                 (update_bin_freq_cache_run s _ last mn d fs eq_refl Hlast
                    eq_refl eq_refl eq_refl ltac:(lra)))
  end.
  attrs. fold bfs.
  match goal with
  | |- update_bin_indices ?s = _ =>
      rewrite (update_bin_indices_run s bfs (mn + sp - d) (Z.of_nat r)
                 eq_refl eq_refl Hr)
  end.
  reflexivity.
Qed.

End UpdateFacts.

(** ** The claims *)

Module Claims.
Import Configuration Props PyFacts StepFacts PlanFacts UpdateFacts.

(** *** Usable bandwidth *)

(** When the nearest whole number of bins times the bin width is an
    integer, [adjust_rate] returns exactly that multiple of the bin width. *)
Lemma adjust_rate_whole_bins (sr d ov : Q) (m : Z) :
  0 < d -> 0 <= sr * (1 - ov) ->
  inject_Z (round (sr * (1 - ov) / d)) * d == inject_Z m ->
  adjust_rate sr d ov = Returned m /\ multiple_of d (inject_Z m).
Proof.
  intros Hd Hx Hm. rewrite adjust_rate_returned by lra. split.
  - now rewrite (int_Qeq _ _ Hm), int_Z.
  - exists (round (sr * (1 - ov) / d)). now symmetry.
Qed.

(** C1: on the command line [-s 10M -F 1024 -o 1] the nearest whole number
    of bins is 1014, that is 9902343.75 Hz, but [adjust_rate] returns the
    truncated 9902343, which is no whole number of bins of width
    9765.625 Hz; on the example of the specification (25 % overlap) it
    returns 7500000. *)
Theorem adjust_rate_truncates_off_bin_grid :
  let c := init_attrs 10000000 1024 1 700000000 None in
  valid_params c /\
  usable_bandwidth c = Returned 9902343%Z /\
  round (sample_rate c * (1 - overlap c) / bin_width c) = 1014%Z /\
  inject_Z 1014 * bin_width c == 39609375 # 4 /\
  ~ multiple_of (bin_width c) (inject_Z 9902343) /\
  usable_bandwidth default_attrs = Returned 7500000%Z.
Proof.
  cbv zeta. repeat split; try (vm_compute; congruence).
  intros [k Hk].
  assert (Hd : bin_width (init_attrs 10000000 1024 1 700000000 None) == 78125 # 8)
    by reflexivity.
  rewrite Hd in Hk. unfold Qeq in Hk. cbn in Hk. lia.
Qed.

(** *** Bin width *)



(** *** The command-line validator *)

(** C10: [fft_size] of the command line accepts a string exactly when it
    reads as an integer that is 0 modulo 32, and otherwise raises
    [ArgumentTypeError]; it accepts 0 and -32; with the accepted 0 the
    construction of the configuration raises [ZeroDivisionError] in the
    division of [update_deltaf], before any attribute is assigned. *)
Theorem cli_fft_size_accepts_multiples_of_32 :
  (forall s v, CliParser.fft_size s = Returned v <->
               CliParser.int_of_str s = Some v /\ (v mod 32 = 0)%Z) /\
  (forall s e, CliParser.fft_size s = Raised e -> e = ArgumentTypeError) /\
  CliParser.fft_size "0" = Returned 0%Z /\
  CliParser.fft_size "-32" = Returned (-32)%Z /\
  (forall sr pct cf sp,
      init sr 0 pct cf sp
      = (Raised ZeroDivisionError, init_attrs sr 0 pct cf sp)) /\
  (forall c, fft_size c = 0%Z ->
             update c = (Raised ZeroDivisionError, c)).
Proof.
  split; [| split; [| split; [| split; [| split]]]].
  - intros s v. unfold CliParser.fft_size. split.
    + intro H.
      destruct (CliParser.int_of_str s) as [w |]; [| discriminate].
      destruct (Z.eqb_spec (w mod 32) 0) as [E | E]; [| discriminate].
      inversion H; subst. split; [reflexivity | exact E].
    + intros (Hs & Hv). rewrite Hs.
      apply Z.eqb_eq in Hv. now rewrite Hv.
  - intros s e. unfold CliParser.fft_size.
    destruct (CliParser.int_of_str s) as [w |].
    + destruct (w mod 32 =? 0)%Z; intro H; inversion H; reflexivity.
    + intro H; inversion H; reflexivity.
  - reflexivity.
  - reflexivity.
  - intros sr pct cf sp. unfold init, update.
    apply bind_raised. rewrite update_deltaf_run. reflexivity.
  - intros c Hc. unfold update.
    apply bind_raised. rewrite update_deltaf_run, Hc. reflexivity.
Qed.

(** *** Crop indices *)

(** [update_bin_indices] assigns the two crop indices before anything in
    it can raise. *)
Lemma update_bin_indices_crop (c : configuration) :
  let c' := snd (update_bin_indices c) in
  let b0 := int (inject_Z (fft_size c) * (overlap c / 2)) in
  bin_start c' = Some b0 /\ bin_stop c' = Some (fft_size c - b0)%Z.
Proof.
  cbv zeta. unfold update_bin_indices. unfold_method. attrs.
  destruct (bin_freqs c) as [bfs |]; attrs; [| split; reflexivity].
  destruct (max_freq c) as [mx |]; attrs; [| split; reflexivity].
  destruct (Utils.find_nearest bfs mx); attrs; split; reflexivity.
Qed.

Lemma crop_start_floor (c : configuration) :
  valid_params c ->
  int (inject_Z (fft_size c) * (overlap c / 2))
  = Qfloor (inject_Z (fft_size c) * overlap c / 2).
Proof.
  intros (_ & Hn & _ & Hov0 & _).
  pose proof (inject_Z_pos _ Hn) as HF.
  rewrite int_nonneg.
  - apply Qfloor_comp. field.
  - apply Qmult_le_0_compat; [lra |].
    apply Qle_shift_div_l; lra.
Qed.

Ltac push_inject :=
  unfold Z.sub;
  repeat first [rewrite inject_Z_plus | rewrite inject_Z_mult
               | rewrite inject_Z_opp].




(** C5, as the code has it: [0 <= bin_start < bin_stop <= fft_size]; the
    first and the last bin of the capture are left out when
    [fft_size * overlap >= 2], that is when at least one whole bin falls in
    each margin. *)
Theorem crop_indices_bounds (c : configuration) :
  valid_params c ->
  exists b0 b1,
    bin_start (snd (update_bin_indices c)) = Some b0 /\
    bin_stop (snd (update_bin_indices c)) = Some b1 /\
    (0 <= b0)%Z /\ (b0 < b1)%Z /\ (b1 <= fft_size c)%Z /\
    (2 <= inject_Z (fft_size c) * overlap c ->
     (1 <= b0)%Z /\ (b1 <= fft_size c - 1)%Z).
Proof.
  intro Hv.
  destruct (update_bin_indices_crop c) as (H0 & H1).
  rewrite (crop_start_floor c Hv) in H0, H1.
  destruct Hv as (_ & Hn & _ & Hov0 & Hov1).
  pose proof (inject_Z_pos _ Hn) as HF.
  set (F := fft_size c) in *. set (ov := overlap c) in *.
  set (b0 := Qfloor (inject_Z F * ov / 2)) in *.
  exists b0, (F - b0)%Z.
  pose proof (Qfloor_le (inject_Z F * ov / 2)) as Hlo.
  fold b0 in Hlo.
  assert (Hx : inject_Z F * ov / 2 == inject_Z F * ov * (1 # 2)) by reflexivity.
  rewrite Hx in Hlo.
  assert (Hprod0 : 0 <= inject_Z F * ov) by (apply Qmult_le_0_compat; lra).
  assert (Hprod1 : inject_Z F * ov < inject_Z F).
  { rewrite <- (Qmult_1_r (inject_Z F)) at 2. apply Qmult_lt_l; assumption. }
  assert (Hb0 : (0 <= b0)%Z).
  { unfold b0. rewrite <- (Qfloor_Z 0). apply Qfloor_resp_le.
    rewrite Hx. change (inject_Z 0) with 0. lra. }
  assert (Hb1 : (2 * b0 < F)%Z).
  { rewrite Zlt_Qlt. push_inject. change (inject_Z 2) with 2. lra. }
  split; [exact H0 |]. split; [exact H1 |].
  split; [exact Hb0 |]. split; [lia |]. split; [lia |].
  intro H2.
  assert (Hb2 : (1 <= b0)%Z).
  { unfold b0. rewrite <- (Qfloor_Z 1). apply Qfloor_resp_le.
    rewrite Hx. change (inject_Z 1) with 1. lra. }
  lia.
Qed.

(** C5, witness: the command line [-F 1024 -o 25]. *)
Lemma crop_indices_bounds_default :
  exists b0 b1,
    bin_start (snd (update_bin_indices default_attrs)) = Some b0 /\
    bin_stop (snd (update_bin_indices default_attrs)) = Some b1 /\
    (0 <= b0)%Z /\ (b0 < b1)%Z /\ (b1 <= fft_size default_attrs)%Z /\
    (2 <= inject_Z (fft_size default_attrs) * overlap default_attrs ->
     (1 <= b0)%Z /\ (b1 <= fft_size default_attrs - 1)%Z).
Proof.
  apply (crop_indices_bounds default_attrs).
  vm_compute. repeat split; congruence.
Defined.

(** C5, counterexample: on the command line [-F 32 -o 1] the overlap is
    positive and the kept range is all of [0, 32), first and last bin
    included. *)
Lemma crop_keeps_edge_bins :
  let c := init_attrs 10000000 32 1 700000000 None in
  valid_params c /\ 0 < overlap c /\
  bin_start (snd (update_bin_indices c)) = Some 0%Z /\
  bin_stop (snd (update_bin_indices c)) = Some (fft_size c) /\
  ~ (exists b0 b1,
       bin_start (snd (update_bin_indices c)) = Some b0 /\
       bin_stop (snd (update_bin_indices c)) = Some b1 /\
       (1 <= b0)%Z /\ (b1 <= fft_size c - 1)%Z).
Proof.
  cbv zeta. repeat split; try (vm_compute; congruence).
  intros (b0 & b1 & H0 & _ & Hb & _).
  vm_compute in H0. inversion H0. lia.
Qed.

(** *** Segment centers *)

(** C2, as the code has it: for valid parameters whose usable bandwidth
    [freq_step] is positive, [update] returns and the segment centers are as
    claimed. *)
Theorem centers_spaced_by_step (c : configuration) (fs : Z) :
  valid_params c ->
  usable_bandwidth c = Returned fs ->
  (0 < fs)%Z ->
  centers_as_claimed c.
Proof.
  intros Hv Hfs Hpos.
  destruct (update_returns c fs Hv Hfs Hpos) as (last & r & Hupd & _).
  pose proof (inject_Z_pos fs Hpos) as HF.
  set (d := bin_width c) in *.
  set (sp := effective_span (requested_span c) fs) in *.
  set (mn := center_freq c - sp / 2 + d / 2) in *.
  pose proof (planned_centers_length mn sp fs Hpos) as Hlen.
  exists (planned c fs last (Z.of_nat r)), fs, sp, mn, (planned_centers mn fs sp).
  split; [exact Hupd |].
  do 5 (split; [reflexivity |]).
  split; [| split; [| split; [| split]]].
  - rewrite Hlen. unfold segment_count.
    destruct (Qle_bool sp (inject_Z fs)); lia.
  - intros i j Hij Hj. rewrite Hlen in Hj.
    rewrite !planned_centers_nth by (assumption || lia).
    assert (H : inject_Z (Z.of_nat i) < inject_Z (Z.of_nat j)).
    { rewrite <- Zlt_Qlt. lia. }
    apply (Qmult_lt_compat_r _ _ (inject_Z fs) HF) in H. lra.
  - intros i Hi. rewrite Hlen in Hi.
    rewrite !planned_centers_nth by (assumption || lia).
    rewrite inject_Z_S. ring.
  - intro Hsp. rewrite Hlen. unfold segment_count.
    apply Qle_bool_iff in Hsp. now rewrite Hsp.
  - intro Hrs.
    assert (Esp : sp = inject_Z fs).
    { unfold sp. rewrite Hrs. reflexivity. }
    split; [rewrite Esp; reflexivity |].
    unfold planned_centers. cbv zeta.
    assert (Hb : Qle_bool sp (inject_Z fs) = true).
    { rewrite Esp. apply Qle_bool_iff. apply Qle_refl. }
    now rewrite Hb.
Qed.

(** C2, witness: the command line [700M --span 100M], 14 segments. *)
Lemma centers_spaced_by_step_span_100M :
  centers_as_claimed (init_attrs 10000000 1024 25 700000000 (Some 100000000)).
Proof.
  apply (centers_spaced_by_step _ 7500000).
  - vm_compute. repeat split; congruence.
  - vm_compute. reflexivity.
  - lia.
Defined.

(** C2, counterexample: the command line
    [700M -F 32 -o 99 --span 100M] is valid, its usable bandwidth is 0, and
    [update] raises [ZeroDivisionError] in [update_tuned_freq_cache]
    ([span / freq_step]); no center is stored. *)
Lemma no_centers_when_step_is_zero :
  let c := init_attrs 10000000 32 99 700000000 (Some 100000000) in
  valid_params c /\
  usable_bandwidth c = Returned 0%Z /\
  fst (update c) = Raised ZeroDivisionError /\
  center_freqs (snd (update c)) = None /\
  ~ centers_as_claimed c.
Proof.
  cbv zeta. repeat split; try (vm_compute; congruence).
  intros (c' & fs & sp & mn & cfs & Hupd & _).
  vm_compute in Hupd. discriminate Hupd.
Qed.

(** *** Bin frequencies *)




(** *** Plotted range *)

(** C6, as the code has it: for valid parameters whose usable bandwidth is
    positive, [update] returns and [max_plotted_bin] is one more than the
    index of the bin nearest [max_freq] (the lowest on a tie); it is at
    least 1 and at most [len(bin_freqs)], so the slice
    [bin_freqs[0:max_plotted_bin]] is in bounds and holds that bin. *)
Theorem max_plotted_bin_slice_in_bounds (c : configuration) (fs : Z) :
  valid_params c ->
  usable_bandwidth c = Returned fs ->
  (0 < fs)%Z ->
  max_plotted_bin_below slice_in_bounds c.
Proof.
  intros Hv Hfs Hpos.
  destruct (update_returns c fs Hv Hfs Hpos)
    as (last & r & Hupd & _ & _ & Hr & Hmin & Hfirst).
  set (d := bin_width c) in *.
  set (sp := effective_span (requested_span c) fs) in *.
  set (mn := center_freq c - sp / 2 + d / 2) in *.
  set (bfs := planned_bins mn (last + inject_Z fs / 2) d) in *.
  exists (planned c fs last (Z.of_nat r)), bfs, (mn + sp - d), (Z.of_nat r + 1)%Z.
  split; [exact Hupd |].
  do 3 (split; [reflexivity |]).
  unfold nearest_plus_one, slice_in_bounds.
  replace (Z.to_nat (Z.of_nat r + 1 - 1)) with r by lia.
  repeat split; try assumption; lia.
Qed.

(** C6, witness: the command line [700M --span 100M]. *)
Lemma max_plotted_bin_slice_in_bounds_span_100M :
  max_plotted_bin_below slice_in_bounds
    (init_attrs 10000000 1024 25 700000000 (Some 100000000)).
Proof.
  apply (max_plotted_bin_slice_in_bounds _ 7500000).
  - vm_compute. repeat split; congruence.
  - vm_compute. reflexivity.
  - lia.
Defined.

(** C6, counterexample: on the default command line [700M] there are 768
    bins, the last one is [max_freq], and [max_plotted_bin] is 768: equal
    to [len(bin_freqs)], not below it. *)
Lemma max_plotted_bin_reaches_length :
  let c := default_attrs in
  valid_params c /\
  fst (update c) = Returned tt /\
  option_map (@List.length Q) (bin_freqs (snd (update c))) = Some 768%nat /\
  max_plotted_bin (snd (update c)) = Some 768%Z /\
  ~ max_plotted_bin_below strictly_inside c.
Proof.
  cbv zeta.
  assert (Hlen : option_map (@List.length Q)
                   (bin_freqs (snd (update default_attrs))) = Some 768%nat)
    by (vm_compute; reflexivity).
  assert (Hm : max_plotted_bin (snd (update default_attrs)) = Some 768%Z)
    by (vm_compute; reflexivity).
  split; [vm_compute; repeat split; congruence |].
  split; [vm_compute; reflexivity |].
  split; [exact Hlen |]. split; [exact Hm |].
  intros (c' & bfs & mx & m & Hupd & Hb & _ & Hmax & _ & Hlt).
  assert (Ec : snd (update default_attrs) = c') by (rewrite Hupd; reflexivity).
  rewrite Ec, Hb in Hlen. rewrite Ec, Hmax in Hm.
  cbn in Hlen. inversion Hlen. inversion Hm.
  unfold strictly_inside in Hlt. lia.
Qed.

(** *** Recomputation *)

(** C7, as the code has it: [update] assigns the attributes in place, step
    by step, and nothing undoes the assignments made before an exception.
    If [update] raises, the command-line attributes are unchanged and
    [max_plotted_bin] and [bin_offset], assigned last, keep their values;
    if [fft_size] is 0 it raises in [update_deltaf] and the whole object is
    unchanged; otherwise [deltaf] already holds
    [sample_rate / fft_size]. *)
Theorem update_failure_keeps_what_was_assigned
    (c : configuration) (e : exn) (c' : configuration) :
  update c = (Raised e, c') ->
  same_params c c' /\
  keeps_last c c' /\
  (fft_size c = 0%Z -> c' = c) /\
  (fft_size c <> 0%Z -> deltaf c' = Some (sample_rate c / inject_Z (fft_size c))).
Proof.
  intro H. apply update_inv in H.
  destruct H as [(E & _ & ->) | (E & H)].
  - unfold same_params, keeps_last. repeat split; auto. contradiction.
  - pose proof (update_tail_keeps
                  (set_deltaf (sample_rate c / inject_Z (fft_size c)) c)) as K.
    rewrite H in K. cbn [snd] in K.
    pose proof (update_tail_keeps_last_on_raise _ _ _ H) as L.
    destruct K as (P & D). split; [| split; [| split]].
    + exact P.
    + exact L.
    + intro E0. contradiction.
    + intros _. exact D.
Qed.

(** C7, witness: [update] after the overlap was changed to 99 %. *)
Lemma update_failure_keeps_what_was_assigned_overlap_edited :
  same_params overlap_edited (snd (update overlap_edited)) /\
  keeps_last overlap_edited (snd (update overlap_edited)) /\
  (fft_size overlap_edited = 0%Z -> snd (update overlap_edited) = overlap_edited) /\
  (fft_size overlap_edited <> 0%Z ->
   deltaf (snd (update overlap_edited))
   = Some (sample_rate overlap_edited / inject_Z (fft_size overlap_edited))).
Proof.
  apply (update_failure_keeps_what_was_assigned overlap_edited ZeroDivisionError).
  vm_compute. reflexivity.
Defined.

(** C7, counterexample: the plan for [700M -F 32 --span 100M] is valid
    (step 7500000, 14 centers).  With the overlap changed to 99 %,
    [update] raises [ZeroDivisionError] in [update_tuned_freq_cache]; by
    then [freq_step] is 0 while the 14 centers of the previous plan are
    still there: the plan is partially updated. *)
Lemma update_failure_is_not_atomic :
  fst (init 10000000 32 25 700000000 (Some 100000000)) = Returned tt /\
  freq_step overlap_edited = Some 7500000%Z /\
  fst (update overlap_edited) = Raised ZeroDivisionError /\
  freq_step (snd (update overlap_edited)) = Some 0%Z /\
  center_freqs (snd (update overlap_edited)) = center_freqs overlap_edited /\
  option_map (@List.length Q) (center_freqs overlap_edited) = Some 14%nat /\
  ~ same_plan overlap_edited (snd (update overlap_edited)).
Proof.
  split; [vm_compute; reflexivity |].
  split; [vm_compute; reflexivity |].
  split; [vm_compute; reflexivity |].
  split; [vm_compute; reflexivity |].
  split; [vm_compute; reflexivity |].
  split; [vm_compute; reflexivity |].
  intros (_ & _ & H & _). vm_compute in H. discriminate H.
Qed.

(** C8, as the code has it: [set_fft_size] with a supported size assigns
    [fft_size] and nothing else: it does not run [update], and the plan
    stays as it was.  The plan follows the new size once the caller runs
    [update]: however that run ends, [deltaf] is then
    [sample_rate / fft_size].  An unsupported size changes nothing. *)
Theorem set_fft_size_leaves_plan_to_update (c : configuration) (size : Z) :
  contains Consts.FFT_SIZES size = true ->
  set_fft_size size c = (Returned tt, set_fft_size_attr size c) /\
  fft_size (set_fft_size_attr size c) = size /\
  sample_rate (set_fft_size_attr size c) = sample_rate c /\
  overlap (set_fft_size_attr size c) = overlap c /\
  center_freq (set_fft_size_attr size c) = center_freq c /\
  requested_span (set_fft_size_attr size c) = requested_span c /\
  same_plan c (set_fft_size_attr size c) /\
  (forall o c', update (set_fft_size_attr size c) = (o, c') ->
                deltaf c' = Some (sample_rate c / inject_Z size)) /\
  (forall other, contains Consts.FFT_SIZES other = false ->
                 set_fft_size other c = (Returned tt, c)).
Proof.
  intro Hin. pose proof (FFT_SIZES_pos size Hin) as Hpos.
  split; [unfold set_fft_size; rewrite Hin; reflexivity |].
  do 5 (split; [reflexivity |]).
  split; [unfold same_plan; repeat split; reflexivity |].
  split.
  - intros o c' H. apply update_inv in H.
    destruct H as [(E & _) | (_ & H)].
    + cbn in E. lia.
    + match type of H with
      | _ ?s = _ => pose proof (update_tail_keeps s) as K
      end.
      rewrite H in K. cbn [snd] in K. destruct K as (_ & D). exact D.
  - intros other Hout. unfold set_fft_size. rewrite Hout. reflexivity.
Qed.

(** C8, witness: [set_fft_size(512)] on the default plan. *)
Lemma set_fft_size_leaves_plan_to_update_512 :
  let c := snd (update default_attrs) in
  set_fft_size 512 c = (Returned tt, set_fft_size_attr 512 c) /\
  fft_size (set_fft_size_attr 512 c) = 512%Z /\
  sample_rate (set_fft_size_attr 512 c) = sample_rate c /\
  overlap (set_fft_size_attr 512 c) = overlap c /\
  center_freq (set_fft_size_attr 512 c) = center_freq c /\
  requested_span (set_fft_size_attr 512 c) = requested_span c /\
  same_plan c (set_fft_size_attr 512 c) /\
  (forall o c', update (set_fft_size_attr 512 c) = (o, c') ->
                deltaf c' = Some (sample_rate c / inject_Z 512)) /\
  (forall other, contains Consts.FFT_SIZES other = false ->
                 set_fft_size other c = (Returned tt, c)).
Proof.
  cbv zeta.
  apply (set_fft_size_leaves_plan_to_update (snd (update default_attrs)) 512).
  reflexivity.
Defined.

(** C8, counterexample: after [set_fft_size(512)] on the default plan
    (1024 bins), [fft_size] is 512 and [deltaf] is still 9765.625, which is
    [sample_rate / 1024] and not [sample_rate / fft_size]. *)
Lemma set_fft_size_leaves_deltaf_stale :
  let c := snd (set_fft_size 512 (snd (update default_attrs))) in
  fst (update default_attrs) = Returned tt /\
  fst (set_fft_size 512 (snd (update default_attrs))) = Returned tt /\
  fft_size c = 512%Z /\
  exists d,
    deltaf c = Some d /\ d == 78125 # 8 /\
    ~ d == sample_rate c / inject_Z (fft_size c).
Proof.
  cbv zeta. split; [vm_compute; reflexivity |].
  split; [vm_compute; reflexivity |].
  split; [vm_compute; reflexivity |].
  eexists. split; [vm_compute; reflexivity |].
  split; vm_compute; congruence.
Qed.

End Claims.

(** ** The run of update as a cascade *)

Module RunFacts.
Import Configuration Props Run PyFacts StepFacts PlanFacts.
Local Open Scope method_scope.

Lemma update_freq_step_eq (c : configuration) (d : Q) :
  deltaf c = Some d ->
  update_freq_step c =
    match adjust_rate (sample_rate c) d (overlap c) with
    | Returned fs => (Returned tt, set_freq_step fs c)
    | Raised e => (Raised e, c)
    end.
Proof.
  intro Hd. unfold update_freq_step. unfold_method. rewrite Hd.
  destruct (adjust_rate (sample_rate c) d (overlap c)); reflexivity.
Qed.

Lemma update_tuned_freq_cache_eq (c : configuration) (mn sp : Q) (fs : Z) :
  min_freq c = Some mn ->
  freq_step c = Some fs ->
  span c = Some sp ->
  update_tuned_freq_cache c =
    match centers_of mn fs sp with
    | Returned cfs =>
        (Returned tt,
         set_n_segments (Z.of_nat (List.length cfs)) (set_center_freqs cfs c))
    | Raised e => (Raised e, c)
    end.
Proof.
  intros Hmn Hfs Hsp.
  unfold update_tuned_freq_cache, centers_of. unfold_method.
  repeat (first [rewrite Hmn | rewrite Hfs | rewrite Hsp]; cbv beta iota).
  destruct (Qle_bool sp (inject_Z fs)).
  - reflexivity.
  - repeat (first [rewrite Hfs | rewrite Hsp]; cbv beta iota).
    destruct (truediv sp (inject_Z fs)) as [q | e]; cbv beta iota;
      [| reflexivity].
    repeat (rewrite Hfs; cbv beta iota).
    match goal with
    | |- context [arange ?a ?b ?s] => destruct (arange a b s)
    end; reflexivity.
Qed.

Lemma update_bin_freq_cache_eq (c : configuration) (cfs : list Q)
    (mn d : Q) (fs : Z) :
  center_freqs c = Some cfs ->
  freq_step c = Some fs ->
  min_freq c = Some mn ->
  deltaf c = Some d ->
  update_bin_freq_cache c =
    match last_item cfs with
    | Returned last =>
        match arange mn (last + inject_Z fs / 2) d with
        | Returned bfs => (Returned tt, set_bin_freqs bfs c)
        | Raised e => (Raised e, c)
        end
    | Raised e => (Raised e, c)
    end.
Proof.
  intros Hcfs Hfs Hmn Hd.
  unfold update_bin_freq_cache. unfold_method.
  rewrite Hcfs. cbv beta iota.
  destruct (last_item cfs) as [last | e]; cbv beta iota; [| reflexivity].
  rewrite Hfs. cbv beta iota. rewrite Hmn. cbv beta iota.
  rewrite Hd. cbv beta iota.
  destruct (arange mn (last + inject_Z fs / 2) d); reflexivity.
Qed.

Lemma update_bin_indices_eq (c : configuration) (bfs : list Q) (mx : Q) :
  bin_freqs c = Some bfs ->
  max_freq c = Some mx ->
  let b0 := int (inject_Z (fft_size c) * (overlap c / 2)) in
  let b1 := (fft_size c - b0)%Z in
  update_bin_indices c =
    match Utils.find_nearest bfs mx with
    | Returned i =>
        (Returned tt,
         set_bin_offset (inject_Z (b1 - b0) / 2)
           (set_max_plotted_bin (i + 1)
              (set_bin_stop b1 (set_bin_start b0 c))))
    | Raised e => (Raised e, set_bin_stop b1 (set_bin_start b0 c))
    end.
Proof.
  intros Hbfs Hmx b0 b1.
  unfold update_bin_indices. unfold_method. attrs.
  rewrite Hbfs. cbv beta iota. attrs. rewrite Hmx. cbv beta iota.
  destruct (Utils.find_nearest bfs mx); reflexivity.
Qed.

(** Reading attributes on the left-hand side only. *)
Ltac attrs_lhs :=
  match goal with
  | |- ?L = ?R =>
      let L1 := eval cbv beta iota delta
                  [set_fft_size_attr set_overlap_attr set_span set_deltaf
                   set_freq_step set_min_freq set_max_freq set_center_freqs
                   set_n_segments set_bin_freqs set_bin_start set_bin_stop
                   set_bin_offset set_max_plotted_bin] in L in
      let L2 := eval cbn [sample_rate fft_size overlap center_freq
                          requested_span span deltaf freq_step min_freq
                          max_freq center_freqs n_segments bin_freqs
                          bin_start bin_stop bin_offset max_plotted_bin]
                  in L1 in
      change (L2 = R)
  end.

(** [update] is the cascade [update_nf]. *)
Lemma update_nf_eq (c : configuration) : update c = update_nf c.
Proof.
  unfold update, update_nf. cbv zeta.
  unfold bind at 1. rewrite update_deltaf_run. fold (bin_width c).
  destruct (fft_size c =? 0)%Z; [reflexivity |].
  unfold bind at 1.
  rewrite (update_freq_step_eq (set_deltaf (bin_width c) c) (bin_width c) eq_refl).
  attrs_lhs.
  destruct (adjust_rate (sample_rate c) (bin_width c) (overlap c)) as [fs | e];
    [| reflexivity].
  unfold bind at 1.
  match goal with
  | |- context [update_span ?s] => rewrite (update_span_run s fs eq_refl)
  end.
  attrs_lhs.
  unfold bind at 1.
  match goal with
  | |- context [update_min_max_freq ?s] =>
      rewrite (update_min_max_freq_run s
                 (effective_span (requested_span c) fs) (bin_width c)
                 eq_refl eq_refl)
  end.
  attrs_lhs.
  unfold bind at 1.
  match goal with
  | |- context [update_tuned_freq_cache ?s] =>
      rewrite (update_tuned_freq_cache_eq s
                 (center_freq c - effective_span (requested_span c) fs / 2
                  + bin_width c / 2)
                 (effective_span (requested_span c) fs) fs
                 eq_refl eq_refl eq_refl)
  end.
  match goal with
  | |- context [centers_of ?a ?b ?x] =>
      destruct (centers_of a b x) as [cfs | e]; [| reflexivity]
  end.
  unfold bind at 1.
  match goal with
  | |- context [update_bin_freq_cache ?s] =>
      rewrite (update_bin_freq_cache_eq s cfs
                 (center_freq c - effective_span (requested_span c) fs / 2
                  + bin_width c / 2)
                 (bin_width c) fs eq_refl eq_refl eq_refl eq_refl)
  end.
  destruct (last_item cfs) as [last | e]; [| reflexivity].
  match goal with
  | |- context [arange ?a ?b ?x] =>
      destruct (arange a b x) as [bfs | e]; [| reflexivity]
  end.
  match goal with
  | |- update_bin_indices ?s = _ =>
      rewrite (update_bin_indices_eq s bfs
                 (center_freq c - effective_span (requested_span c) fs / 2
                  + bin_width c / 2
                  + effective_span (requested_span c) fs - bin_width c)
                 eq_refl eq_refl)
  end.
  cbv zeta.
  match goal with
  | |- context [Utils.find_nearest ?a ?x] =>
      destruct (Utils.find_nearest a x)
  end; reflexivity.
Qed.

(** When [update] returns: exactly when no expression of the cascade
    raises, and then every derived attribute has been assigned. *)
Lemma update_returned_iff (c c' : configuration) :
  update c = (Returned tt, c') <->
  exists fs cfs last bfs i,
    fft_size c <> 0%Z /\
    adjust_rate (sample_rate c) (bin_width c) (overlap c) = Returned fs /\
    centers_of (center_freq c - effective_span (requested_span c) fs / 2
                + bin_width c / 2) fs
      (effective_span (requested_span c) fs) = Returned cfs /\
    last_item cfs = Returned last /\
    arange (center_freq c - effective_span (requested_span c) fs / 2
            + bin_width c / 2) (last + inject_Z fs / 2) (bin_width c)
    = Returned bfs /\
    Utils.find_nearest bfs
      (center_freq c - effective_span (requested_span c) fs / 2
       + bin_width c / 2 + effective_span (requested_span c) fs - bin_width c)
    = Returned i /\
    c' = planned_with c fs cfs bfs i.
Proof.
  rewrite update_nf_eq. unfold update_nf. cbv zeta. split.
  - destruct (Z.eqb_spec (fft_size c) 0) as [E0 | E0]; [discriminate |].
    destruct (adjust_rate (sample_rate c) (bin_width c) (overlap c))
      as [fs | e] eqn:E1; [| discriminate].
    match goal with
    | |- context [centers_of ?a ?b ?x] =>
        destruct (centers_of a b x) as [cfs | e] eqn:E2; [| discriminate]
    end.
    destruct (last_item cfs) as [last | e] eqn:E3; [| discriminate].
    match goal with
    | |- context [arange ?a ?b ?x] =>
        destruct (arange a b x) as [bfs | e] eqn:E4; [| discriminate]
    end.
    match goal with
    | |- context [Utils.find_nearest ?a ?x] =>
        destruct (Utils.find_nearest a x) as [i | e] eqn:E5; [| discriminate]
    end.
    intro H. exists fs, cfs, last, bfs, i.
    repeat (split; [assumption || reflexivity |]).
    injection H as <-. reflexivity.
  - intros (fs & cfs & last & bfs & i & E0 & E1 & E2 & E3 & E4 & E5 & ->).
    apply Z.eqb_neq in E0. rewrite E0, E1, E2, E3, E4, E5. reflexivity.
Qed.

(** The attributes of the object after a returned run. *)
Lemma planned_with_params (c : configuration) fs cfs bfs i :
  same_params c (planned_with c fs cfs bfs i).
Proof. unfold same_params. repeat split; reflexivity. Qed.

Lemma planned_with_same_params (c1 c2 : configuration) fs cfs bfs i :
  same_params c1 c2 ->
  planned_with c2 fs cfs bfs i = planned_with c1 fs cfs bfs i.
Proof.
  intros (H1 & H2 & H3 & H4 & H5).
  unfold planned_with, bin_width. rewrite H1, H2, H3, H4, H5. reflexivity.
Qed.

(** A run that returns does not depend on the attributes that [update]
    assigns: from another object with the same command-line attributes it
    returns too, with the same object. *)
Lemma update_returned_same_params (c1 c2 c' : configuration) :
  same_params c1 c2 ->
  update c1 = (Returned tt, c') ->
  update c2 = (Returned tt, c').
Proof.
  intros Hp H. apply update_returned_iff in H.
  destruct H as (fs & cfs & last & bfs & i & E0 & E1 & E2 & E3 & E4 & E5 & ->).
  apply update_returned_iff. exists fs, cfs, last, bfs, i.
  rewrite (planned_with_same_params c1 c2 fs cfs bfs i Hp).
  destruct Hp as (H1 & H2 & H3 & H4 & H5).
  unfold bin_width in *. rewrite H1, H2, H3, H4, H5.
  repeat (split; [assumption |]). reflexivity.
Qed.

End RunFacts.

(** ** Further properties of the code *)

Module Extras.
Import Configuration Props Run PyFacts StepFacts PlanFacts UpdateFacts RunFacts.

Ltac fields :=
  unfold planned_with; cbv zeta;
  cbn [sample_rate fft_size overlap center_freq requested_span span deltaf
       freq_step min_freq max_freq center_freqs n_segments bin_freqs
       bin_start bin_stop bin_offset max_plotted_bin].

(** Case analysis on the expressions of a cascade, outermost first. *)
Ltac cascade :=
  repeat (match goal with
          | |- context [match ?x with _ => _ end] =>
              lazymatch x with
              | context [match _ with _ => _ end] => fail
              | _ => destruct x
              end
          end; cbv beta iota).

Lemma update_outcome_same_params (c1 c2 : configuration) :
  same_params c1 c2 -> fst (update c1) = fst (update c2).
Proof.
  intros (H1 & H2 & H3 & H4 & H5).
  rewrite !update_nf_eq. unfold update_nf, bin_width. cbv zeta.
  rewrite H1, H2, H3, H4, H5.
  cascade; reflexivity.
Qed.

(** X1: what [update] does is decided by the command-line attributes alone.
    Two objects that agree on them end [update] the same way (both return,
    or both raise the same exception), and when it returns they end as the
    same object: nothing of a previous plan is left. *)
Theorem update_ignores_previous_plan (c1 c2 : configuration) :
  same_params c1 c2 ->
  fst (update c1) = fst (update c2) /\
  (forall c', update c1 = (Returned tt, c') -> update c2 = (Returned tt, c')).
Proof.
  intro Hp. split.
  - now apply update_outcome_same_params.
  - intros c' H. now apply (update_returned_same_params c1 c2 c').
Qed.

(** X1, witness: a fresh object for the default command line, and the object
    planned for 512 bins on which [fft_size] was set back to 1024. *)
Lemma update_ignores_previous_plan_after_resize :
  let c1 := default_attrs in
  let c2 := set_fft_size_attr 1024
              (snd (update (init_attrs 10000000 512 25 700000000 None))) in
  fst (update c1) = fst (update c2) /\
  (forall c', update c1 = (Returned tt, c') -> update c2 = (Returned tt, c')).
Proof.
  cbv zeta. apply update_ignores_previous_plan.
  unfold same_params. repeat split; vm_compute; reflexivity.
Defined.

(** X2: a second [update] on the object that a returned [update] left changes
    nothing. *)
Theorem update_idempotent (c c' : configuration) :
  update c = (Returned tt, c') -> update c' = (Returned tt, c').
Proof.
  intro H. apply (update_returned_same_params c c' c'); [| exact H].
  apply update_returned_iff in H.
  destruct H as (fs & cfs & last & bfs & i & _ & _ & _ & _ & _ & _ & ->).
  apply planned_with_params.
Qed.

(** X2, witness: the default command line. *)
Lemma update_idempotent_default :
  update (snd (update default_attrs)) = (Returned tt, snd (update default_attrs)).
Proof.
  apply (update_idempotent default_attrs).
  vm_compute. reflexivity.
Defined.

(** X3: after a returned [update] the bins from [min_freq] to [max_freq],
    each [deltaf] wide, fill exactly the span around the center frequency:
    the lower edge of the first is [center_freq - span / 2], the upper edge of
    the last is [center_freq + span / 2]. *)
Theorem span_centered_on_center_freq (c c' : configuration) :
  update c = (Returned tt, c') ->
  exists sp d mn mx,
    span c' = Some sp /\ deltaf c' = Some d /\
    min_freq c' = Some mn /\ max_freq c' = Some mx /\
    center_freq c' = center_freq c /\
    mn - d / 2 == center_freq c - sp / 2 /\
    mx + d / 2 == center_freq c + sp / 2 /\
    (mn + mx) / 2 == center_freq c /\
    mx - mn == sp - d.
Proof.
  intro H. apply update_returned_iff in H.
  destruct H as (fs & cfs & last & bfs & i & _ & _ & _ & _ & _ & _ & ->).
  fields. do 4 eexists.
  do 5 (split; [reflexivity |]).
  repeat split; field.
Qed.

(** X3, witness: the command line [700M -F 32 --span 100M]. *)
Lemma span_centered_on_center_freq_span_100M :
  let c := init_attrs 10000000 32 25 700000000 (Some 100000000) in
  exists sp d mn mx,
    span (snd (update c)) = Some sp /\ deltaf (snd (update c)) = Some d /\
    min_freq (snd (update c)) = Some mn /\ max_freq (snd (update c)) = Some mx /\
    center_freq (snd (update c)) = center_freq c /\
    mn - d / 2 == center_freq c - sp / 2 /\
    mx + d / 2 == center_freq c + sp / 2 /\
    (mn + mx) / 2 == center_freq c /\
    mx - mn == sp - d.
Proof.
  cbv zeta. apply span_centered_on_center_freq.
  vm_compute. reflexivity.
Defined.

(** *** Tiling of the span by the segments *)

(** X4: for valid parameters with a positive usable bandwidth, the windows of
    width [freq_step] around the centers start at [min_freq] and cover every
    frequency from [min_freq] to [max_freq]. *)
Theorem segments_cover_span (c : configuration) (fs : Z) :
  valid_params c ->
  usable_bandwidth c = Returned fs ->
  (0 < fs)%Z ->
  exists c' mn mx cfs,
    update c = (Returned tt, c') /\
    min_freq c' = Some mn /\ max_freq c' = Some mx /\
    center_freqs c' = Some cfs /\
    nth 0 cfs 0 - inject_Z fs / 2 == mn /\
    (forall f, mn <= f -> f <= mx ->
       exists i, (i < List.length cfs)%nat /\ in_window fs (nth i cfs 0) f).
Proof.
  intros Hv Hfs Hpos.
  destruct (update_returns c fs Hv Hfs Hpos) as (last & r & Hupd & _).
  pose proof (inject_Z_pos fs Hpos) as HF.
  pose proof (bin_width_pos c Hv) as Hd.
  set (d := bin_width c) in *.
  set (sp := effective_span (requested_span c) fs) in *.
  set (mn := center_freq c - sp / 2 + d / 2) in *.
  pose proof (planned_centers_length mn sp fs Hpos) as Hlen.
  assert (Hcount : (0 < segment_count fs sp)%nat).
  { unfold segment_count. destruct (Qle_bool sp (inject_Z fs)); lia. }
  exists (planned c fs last (Z.of_nat r)), mn, (mn + sp - d),
    (planned_centers mn fs sp).
  split; [exact Hupd |]. do 3 (split; [reflexivity |]).
  split.
  - rewrite planned_centers_nth by assumption.
    change (inject_Z (Z.of_nat 0)) with 0. ring.
  - intros f Hlo Hhi.
    set (F := inject_Z fs) in *.
    set (q := (f - mn) / F).
    assert (HqF : q * F == f - mn) by (unfold q; field; lra).
    assert (Hq0 : 0 <= q).
    { unfold q. apply Qle_shift_div_l; [exact HF | lra]. }
    assert (Hfl0 : (0 <= Qfloor q)%Z).
    { rewrite <- (Qfloor_Z 0). now apply Qfloor_resp_le. }
    assert (Hi : (Z.to_nat (Qfloor q) < segment_count fs sp)%nat).
    { unfold segment_count. fold F.
      destruct (Qle_bool sp F) eqn:E.
      - apply Qle_bool_iff in E.
        assert (Hq1 : q < 1).
        { unfold q. apply Qlt_shift_div_r; [exact HF | lra]. }
        rewrite (Qfloor_unique q 0).
        + cbn. lia.
        + exact Hq0.
        + change (inject_Z 0) with 0. lra.
      - apply Qle_bool_false in E.
        assert (Hle : q <= sp / F).
        { unfold q. apply Qle_shift_div_l; [exact HF |].
          assert (Hx : (f - mn) / F * F == f - mn) by (field; lra).
          rewrite Hx. lra. }
        apply Qfloor_resp_le in Hle. unfold floor. lia. }
    exists (Z.to_nat (Qfloor q)). split; [now rewrite Hlen |].
    unfold in_window. rewrite planned_centers_nth by assumption. fold F.
    rewrite Z2Nat.id by exact Hfl0.
    pose proof (Qfloor_le q) as H1. pose proof (Qlt_floor q) as H2.
    rewrite inject_Z_plus in H2. change (inject_Z 1) with 1 in H2.
    apply (Qmult_le_compat_r _ _ F) in H1; [| lra].
    apply (Qmult_lt_compat_r _ _ F HF) in H2.
    halves. split; lra.
Qed.

(** X4, witness: the command line [700M -F 32 --span 100M]. *)
Lemma segments_cover_span_100M :
  let c := init_attrs 10000000 32 25 700000000 (Some 100000000) in
  exists c' mn mx cfs,
    update c = (Returned tt, c') /\
    min_freq c' = Some mn /\ max_freq c' = Some mx /\
    center_freqs c' = Some cfs /\
    nth 0 cfs 0 - inject_Z 7500000 / 2 == mn /\
    (forall f, mn <= f -> f <= mx ->
       exists i, (i < List.length cfs)%nat /\
                 in_window 7500000 (nth i cfs 0) f).
Proof.
  cbv zeta. apply segments_cover_span.
  - vm_compute. repeat split; congruence.
  - vm_compute. reflexivity.
  - lia.
Defined.

(** X5: when the requested span is a whole number [k >= 2] of steps,
    [update_tuned_freq_cache] plans [k + 1] segments: the window of the last
    one starts at [max_freq + deltaf], above every requested frequency. *)
Theorem extra_segment_on_whole_multiple (c : configuration) (fs k : Z) (q : Q) :
  valid_params c ->
  usable_bandwidth c = Returned fs ->
  (0 < fs)%Z ->
  requested_span c = Some q ->
  q == inject_Z k * inject_Z fs ->
  (2 <= k)%Z ->
  exists c' mx d cfs last,
    update c = (Returned tt, c') /\
    n_segments c' = Some (k + 1)%Z /\
    max_freq c' = Some mx /\ deltaf c' = Some d /\
    center_freqs c' = Some cfs /\ last_item cfs = Returned last /\
    last - inject_Z fs / 2 == mx + d /\
    mx < last - inject_Z fs / 2.
Proof.
  intros Hv Hfs Hpos Hrs Hq Hk.
  destruct (update_returns c fs Hv Hfs Hpos)
    as (last & r & Hupd & Hlast & Hlast_eq & _).
  pose proof (inject_Z_pos fs Hpos) as HF.
  pose proof (bin_width_pos c Hv) as Hd.
  assert (Hk2 : 2 <= inject_Z k).
  { change 2 with (inject_Z 2). now rewrite <- Zle_Qle. }
  assert (HkF : 2 * inject_Z fs <= inject_Z k * inject_Z fs).
  { apply Qmult_le_compat_r; lra. }
  assert (Esp : effective_span (requested_span c) fs = q).
  { rewrite Hrs. unfold effective_span.
    assert (Hne : Qeq_bool q 0 = false) by (apply Qeq_bool_false; lra).
    now rewrite Hne. }
  rewrite Esp in *.
  set (d := bin_width c) in *.
  set (mn := center_freq c - q / 2 + d / 2) in *.
  assert (Hcount : segment_count fs q = S (Z.to_nat k)).
  { unfold segment_count.
    assert (Hb : Qle_bool q (inject_Z fs) = false) by (apply Qle_bool_false; lra).
    rewrite Hb. f_equal. f_equal. unfold floor.
    rewrite <- (Qfloor_Z k). apply Qfloor_comp. rewrite Hq. field. lra. }
  rewrite Hcount in Hlast_eq.
  replace (S (Z.to_nat k) - 1)%nat with (Z.to_nat k) in Hlast_eq by lia.
  rewrite Z2Nat.id in Hlast_eq by lia.
  exists (planned c fs last (Z.of_nat r)), (mn + q - d), d,
    (planned_centers mn fs q), last.
  split; [exact Hupd |].
  split.
  { unfold planned. cbv zeta.
    cbn [n_segments]. rewrite Esp. fold d. fold mn.
    rewrite planned_centers_length by exact Hpos. rewrite Hcount.
    f_equal. lia. }
  split; [unfold planned; cbv zeta; cbn [max_freq]; rewrite Esp; reflexivity |].
  split; [reflexivity |].
  split; [unfold planned; cbv zeta; cbn [center_freqs]; rewrite Esp; reflexivity |].
  split; [exact Hlast |].
  assert (E : last - inject_Z fs / 2 == mn + q - d + d).
  { rewrite Hlast_eq, Hq. field. }
  split; [exact E | rewrite E; lra].
Qed.

(** X5, witness: the command line [700M -F 32 --span 15M]: two steps of
    7.5 MHz, three segments. *)
Lemma extra_segment_on_15M :
  let c := init_attrs 10000000 32 25 700000000 (Some 15000000) in
  exists c' mx d cfs last,
    update c = (Returned tt, c') /\
    n_segments c' = Some (2 + 1)%Z /\
    max_freq c' = Some mx /\ deltaf c' = Some d /\
    center_freqs c' = Some cfs /\ last_item cfs = Returned last /\
    last - inject_Z 7500000 / 2 == mx + d /\
    mx < last - inject_Z 7500000 / 2.
Proof.
  cbv zeta.
  apply (extra_segment_on_whole_multiple _ 7500000 2 15000000).
  - vm_compute. repeat split; congruence.
  - vm_compute. reflexivity.
  - lia.
  - reflexivity.
  - reflexivity.
  - lia.
Defined.

(** *** Usable bandwidth *)

Lemma round_mono (x y : Q) : x <= y -> (round x <= round y)%Z.
Proof.
  intro H. unfold round.
  destruct (Qle_bool 0 x) eqn:Ex; destruct (Qle_bool 0 y) eqn:Ey.
  - apply Qfloor_resp_le. lra.
  - apply Qle_bool_iff in Ex. apply Qle_bool_false in Ey. lra.
  - apply Qle_bool_false in Ex. apply Qle_bool_iff in Ey.
    transitivity 0%Z.
    + rewrite <- (Qceiling_Z 0). apply Qceiling_resp_le.
      change (inject_Z 0) with 0. lra.
    + rewrite <- (Qfloor_Z 0). apply Qfloor_resp_le.
      change (inject_Z 0) with 0. lra.
  - apply Qceiling_resp_le. lra.
Qed.

Lemma round_Z (z : Z) : round (inject_Z z) = z.
Proof.
  unfold round. destruct (Qle_bool 0 (inject_Z z)).
  - apply Qfloor_unique; lra.
  - apply Qceiling_unique; lra.
Qed.

(** X6: for a positive bin width and a non-negative target
    [samp_rate * (1 - overlap)], [adjust_rate] returns a non-negative
    integer that is at most half a bin above the target and less than half a
    bin plus 1 Hz below it. *)
Theorem adjust_rate_within_half_bin (sr d ov : Q) (fs : Z) :
  0 < d ->
  0 <= sr * (1 - ov) ->
  adjust_rate sr d ov = Returned fs ->
  (0 <= fs)%Z /\
  inject_Z fs <= sr * (1 - ov) + d / 2 /\
  sr * (1 - ov) - d / 2 - 1 < inject_Z fs.
Proof.
  intros Hd Hx H. rewrite adjust_rate_returned in H by lra.
  injection H as <-.
  set (x := sr * (1 - ov)) in *. set (y := x / d).
  assert (Hyd : y * d == x) by (unfold y; field; lra).
  assert (Hy : 0 <= y) by (unfold y; apply Qle_shift_div_l; lra).
  pose proof (round_nonneg y Hy) as Hk.
  pose proof (round_nearest y) as Hn. apply Qabs_Qle_condition in Hn.
  destruct Hn as (Hn1 & Hn2).
  set (k := inject_Z (round y)) in *.
  assert (Hk0 : 0 <= k).
  { unfold k. change 0 with (inject_Z 0). now rewrite <- Zle_Qle. }
  assert (Hkd : 0 <= k * d) by (apply Qmult_le_0_compat; lra).
  destruct (int_bounds_nonneg (k * d) Hkd) as (B1 & B2 & B3).
  apply (Qmult_le_compat_r _ _ d) in Hn1; [| lra].
  apply (Qmult_le_compat_r _ _ d) in Hn2; [| lra].
  assert (E : (k - y) * d == k * d - x) by (rewrite <- Hyd; ring).
  rewrite E in Hn1, Hn2.
  halves. repeat split; [exact B3 | lra | lra].
Qed.

(** X6, witness: the command line [-s 10M -F 1024 -o 1]. *)
Lemma adjust_rate_within_half_bin_overlap_1 :
  (0 <= 9902343)%Z /\
  inject_Z 9902343 <= 10000000 * (1 - (1 # 100)) + (78125 # 8) / 2 /\
  10000000 * (1 - (1 # 100)) - (78125 # 8) / 2 - 1 < inject_Z 9902343.
Proof.
  apply (adjust_rate_within_half_bin 10000000 (78125 # 8) (1 # 100) 9902343).
  - reflexivity.
  - vm_compute. congruence.
  - vm_compute. reflexivity.
Defined.



(** X8: with a sample rate of 0 and a non-zero FFT size, [update] raises
    [ZeroDivisionError] in [adjust_rate] (the division by the bin width 0),
    after [deltaf] has been assigned and before anything else is. *)
Theorem update_zero_sample_rate (c : configuration) :
  sample_rate c == 0 ->
  fft_size c <> 0%Z ->
  update c = (Raised ZeroDivisionError, set_deltaf (bin_width c) c) /\
  bin_width c == 0.
Proof.
  intros Hsr Hn.
  assert (Hd : bin_width c == 0).
  { unfold bin_width. rewrite Hsr. field. now rewrite inject_Z_eq0. }
  split; [| exact Hd].
  rewrite update_nf_eq. unfold update_nf. cbv zeta.
  apply Z.eqb_neq in Hn. rewrite Hn.
  unfold adjust_rate. rewrite (truediv_zero _ _ Hd). reflexivity.
Qed.

(** X8, witness: the command line [700M -s 0]. *)
Lemma update_zero_sample_rate_default :
  let c := init_attrs 0 1024 25 700000000 None in
  update c = (Raised ZeroDivisionError, set_deltaf (bin_width c) c) /\
  bin_width c == 0.
Proof.
  cbv zeta. apply update_zero_sample_rate.
  - reflexivity.
  - discriminate.
Defined.

(** *** Requested span and crop offset *)

(** X9: a requested span of 0 counts as no requested span
    ([if self.requested_span:]): [update] ends the same way and leaves the
    same plan as on the object without a requested span. *)
Theorem zero_span_is_no_span (c : configuration) (q : Q) :
  requested_span c = Some q ->
  q == 0 ->
  fst (update c) = fst (update (set_requested_span_attr None c)) /\
  same_plan (snd (update (set_requested_span_attr None c))) (snd (update c)).
Proof.
  intros Hrs Hq.
  rewrite !update_nf_eq. unfold update_nf, bin_width. cbv zeta.
  change (fft_size (set_requested_span_attr None c)) with (fft_size c).
  change (sample_rate (set_requested_span_attr None c)) with (sample_rate c).
  change (overlap (set_requested_span_attr None c)) with (overlap c).
  change (center_freq (set_requested_span_attr None c)) with (center_freq c).
  change (requested_span (set_requested_span_attr None c)) with (@None Q).
  rewrite Hrs.
  assert (E : forall fs, effective_span (Some q) fs = effective_span None fs).
  { intro fs. unfold effective_span.
    apply Qeq_bool_iff in Hq. now rewrite Hq. }
  destruct (fft_size c =? 0)%Z.
  { split; [reflexivity |]. unfold same_plan. repeat split; reflexivity. }
  destruct (adjust_rate (sample_rate c)
              (sample_rate c / inject_Z (fft_size c)) (overlap c)) as [fs | e].
  2: { split; [reflexivity |]. unfold same_plan. repeat split; reflexivity. }
  rewrite (E fs).
  cascade; (split; [reflexivity |]);
    unfold same_plan; repeat split; reflexivity.
Qed.

(** X9, witness: the command line [700M -F 32 --span 0]. *)
Lemma zero_span_is_no_span_32 :
  let c := init_attrs 10000000 32 25 700000000 (Some 0) in
  fst (update c) = fst (update (set_requested_span_attr None c)) /\
  same_plan (snd (update (set_requested_span_attr None c))) (snd (update c)).
Proof.
  cbv zeta.
  apply (zero_span_is_no_span _ 0); reflexivity.
Defined.

(** X10: after a returned [update], [bin_offset] is the distance of both crop
    indices from the middle of the capture:
    [bin_start + bin_offset = fft_size / 2 = bin_stop - bin_offset]. *)
Theorem bin_offset_from_center (c c' : configuration) :
  update c = (Returned tt, c') ->
  exists b0 b1 off,
    bin_start c' = Some b0 /\ bin_stop c' = Some b1 /\
    bin_offset c' = Some off /\
    inject_Z b0 + off == inject_Z (fft_size c) / 2 /\
    inject_Z b1 - off == inject_Z (fft_size c) / 2.
Proof.
  intro H. apply update_returned_iff in H.
  destruct H as (fs & cfs & last & bfs & i & _ & _ & _ & _ & _ & _ & ->).
  fields. do 3 eexists. do 3 (split; [reflexivity |]).
  unfold Z.sub. rewrite !inject_Z_plus, !inject_Z_opp.
  split; field.
Qed.

(** X10, witness: the command line [700M -F 32]. *)
Lemma bin_offset_from_center_32 :
  let c := init_attrs 10000000 32 25 700000000 None in
  exists b0 b1 off,
    bin_start (snd (update c)) = Some b0 /\
    bin_stop (snd (update c)) = Some b1 /\
    bin_offset (snd (update c)) = Some off /\
    inject_Z b0 + off == inject_Z (fft_size c) / 2 /\
    inject_Z b1 - off == inject_Z (fft_size c) / 2.
Proof.
  cbv zeta. apply bin_offset_from_center.
  vm_compute. reflexivity.
Defined.

(** *** Command line *)

Lemma percent_returned_iff (s : string) (v : Z) :
  CliParser.percent s = Returned v <->
  CliParser.int_of_str s = Some v /\ (0 <= v < 100)%Z.
Proof.
  unfold CliParser.percent. split.
  - intro H. destruct (CliParser.int_of_str s) as [w |]; [| discriminate].
    destruct (Z.leb_spec 0 w); destruct (Z.ltb_spec w 100);
      cbn in H; try discriminate.
    inversion H; subst. split; [reflexivity | lia].
  - intros (Hs & Hv). rewrite Hs.
    destruct (Z.leb_spec 0 v); destruct (Z.ltb_spec v 100); cbn;
      try reflexivity; lia.
Qed.

Lemma percent_overlap_bounds (s : string) (v n : Z) (sr cf : Q) (sp : option Q) :
  CliParser.percent s = Returned v ->
  overlap (init_attrs sr n v cf sp) == inject_Z v / 100 /\
  0 <= overlap (init_attrs sr n v cf sp) /\
  overlap (init_attrs sr n v cf sp) < 1.
Proof.
  intro H. apply percent_returned_iff in H. destruct H as (_ & Hv).
  cbn [init_attrs overlap].
  assert (H0 : 0 <= inject_Z v).
  { change 0 with (inject_Z 0). rewrite <- Zle_Qle. lia. }
  assert (H1 : inject_Z v < 100).
  { change 100 with (inject_Z 100). rewrite <- Zlt_Qlt. lia. }
  split; [reflexivity |]. split.
  - apply Qle_shift_div_l; lra.
  - apply Qlt_shift_div_r; lra.
Qed.

(** X11: [percent] accepts a string exactly when it reads as an integer from
    0 to 99 and otherwise raises [ArgumentTypeError]; it returns the integer
    itself, and the overlap fraction that [__init__] makes of an accepted
    value is that value over 100, at least 0 and below 1. *)
Theorem percent_gives_overlap_fraction :
  (forall s v, CliParser.percent s = Returned v <->
               CliParser.int_of_str s = Some v /\ (0 <= v < 100)%Z) /\
  (forall s e, CliParser.percent s = Raised e -> e = ArgumentTypeError) /\
  (forall s v sr n cf sp,
      CliParser.percent s = Returned v ->
      overlap (init_attrs sr n v cf sp) == inject_Z v / 100 /\
      0 <= overlap (init_attrs sr n v cf sp) /\
      overlap (init_attrs sr n v cf sp) < 1).
Proof.
  split; [exact percent_returned_iff |]. split.
  - intros s e. unfold CliParser.percent.
    destruct (CliParser.int_of_str s) as [w |].
    + destruct ((0 <=? w) && (w <? 100))%Z; intro H; inversion H; reflexivity.
    + intro H; inversion H; reflexivity.
  - intros s v sr n cf sp. apply percent_overlap_bounds.
Qed.

(** X12: what the validators of [--overlap] and [--fft-size] accept gives
    valid parameters as soon as the FFT size and the sample rate are
    positive, which no validator checks. *)
Theorem validated_arguments_are_valid (s1 s2 : string) (v n : Z) (sr cf : Q)
    (sp : option Q) :
  CliParser.percent s1 = Returned v ->
  CliParser.fft_size s2 = Returned n ->
  (0 < n)%Z ->
  0 < sr ->
  valid_params (init_attrs sr n v cf sp).
Proof.
  intros Hp Hf Hn Hsr.
  destruct (percent_overlap_bounds s1 v n sr cf sp Hp) as (_ & H0 & H1).
  unfold CliParser.fft_size in Hf.
  destruct (CliParser.int_of_str s2) as [w |]; [| discriminate].
  destruct (Z.eqb_spec (w mod 32) 0) as [E | E]; [| discriminate].
  inversion Hf; subst.
  unfold valid_params. repeat split; assumption.
Qed.

(** X12, witness: the command line [700M -o 25 -F 1024]. *)
Lemma validated_arguments_are_valid_default :
  valid_params (init_attrs 10000000 1024 25 700000000 None).
Proof.
  apply (validated_arguments_are_valid "25" "1024").
  - reflexivity.
  - reflexivity.
  - lia.
  - reflexivity.
Defined.

(** *** Bins of the plan against bins of the captures *)



(** *** A negative FFT size *)

Lemma Qdiv_nonneg_neg (x d : Q) : 0 <= x -> d < 0 -> x / d <= 0.
Proof.
  intros Hx Hd.
  assert (E : x / d == - (x / - d)) by (field; lra).
  assert (H : 0 <= x / - d) by (apply Qle_shift_div_l; lra).
  rewrite E. lra.
Qed.

Lemma adjust_rate_nonneg_for_negative_width (sr d ov : Q) (fs : Z) :
  d < 0 -> 0 <= sr * (1 - ov) ->
  adjust_rate sr d ov = Returned fs -> (0 <= fs)%Z.
Proof.
  intros Hd Hx H. rewrite adjust_rate_returned in H by lra.
  injection H as <-.
  pose proof (Qdiv_nonneg_neg _ _ Hx Hd) as Hy.
  pose proof (round_mono _ _ Hy) as Hk.
  change 0 with (inject_Z 0) in Hk. rewrite round_Z in Hk.
  set (k := round (sr * (1 - ov) / d)) in *.
  assert (Hkq : inject_Z k <= 0).
  { change 0 with (inject_Z 0). now rewrite <- Zle_Qle. }
  apply int_bounds_nonneg.
  assert (E : inject_Z k * d == (- inject_Z k) * (- d)) by ring.
  rewrite E. apply Qmult_le_0_compat; lra.
Qed.

Lemma centers_of_last (mn sp : Q) (fs : Z) (cfs : list Q) (last : Q) :
  (0 <= fs)%Z ->
  centers_of mn fs sp = Returned cfs ->
  last_item cfs = Returned last ->
  mn + inject_Z fs / 2 <= last.
Proof.
  intros Hfs Hc Hl. unfold centers_of in Hc. cbv zeta in Hc.
  assert (HF : 0 <= inject_Z fs).
  { change 0 with (inject_Z 0). now rewrite <- Zle_Qle. }
  destruct (Qle_bool sp (inject_Z fs)).
  - injection Hc as <-. cbn in Hl. injection Hl as <-. apply Qle_refl.
  - unfold truediv in Hc.
    destruct (Qeq_bool (inject_Z fs) 0) eqn:E0; [discriminate |].
    unfold arange in Hc. rewrite E0 in Hc. injection Hc as <-.
    match type of Hl with
    | last_item (map ?f (seq 0 ?n)) = _ =>
        destruct n as [| m]; [discriminate |];
        rewrite (last_item_map_seq f m) in Hl
    end.
    injection Hl as <-.
    assert (0 <= inject_Z (Z.of_nat m) * inject_Z fs).
    { apply Qmult_le_0_compat; [| exact HF].
      change 0 with (inject_Z 0). rewrite <- Zle_Qle. lia. }
    lra.
Qed.

Lemma arange_empty_for_negative_step (start stop step : Q) (a : list Q) :
  step < 0 -> start <= stop ->
  arange start stop step = Returned a -> a = [].
Proof.
  intros Hs Hle H. rewrite arange_returned in H by lra.
  injection H as <-.
  assert (Hq : (stop - start) / step <= 0).
  { apply Qdiv_nonneg_neg; lra. }
  apply Qceiling_resp_le in Hq. change 0 with (inject_Z 0) in Hq.
  rewrite Qceiling_Z in Hq.
  replace (Z.to_nat (Qceiling ((stop - start) / step))) with 0%nat by lia.
  reflexivity.
Qed.

(** X14: a negative FFT size (the command-line validator accepts every
    negative multiple of 32) never yields bin frequencies: whatever way
    [update] ends, [bin_freqs] is either what it was before or the empty
    array. *)
Theorem negative_fft_size_gives_no_bins (c : configuration)
    (o : outcome unit) (c' : configuration) :
  (fft_size c < 0)%Z ->
  0 < sample_rate c ->
  0 <= overlap c -> overlap c < 1 ->
  update c = (o, c') ->
  bin_freqs c' = bin_freqs c \/ bin_freqs c' = Some [].
Proof.
  intros Hn Hsr Hov0 Hov1 H.
  rewrite update_nf_eq in H. unfold update_nf in H. cbv zeta in H.
  assert (En : (fft_size c =? 0)%Z = false) by (apply Z.eqb_neq; lia).
  rewrite En in H.
  assert (Hd : bin_width c < 0).
  { unfold bin_width.
    assert (HF : 0 < - inject_Z (fft_size c)).
    { rewrite <- inject_Z_opp. apply inject_Z_pos. lia. }
    assert (E : sample_rate c / inject_Z (fft_size c)
                == - (sample_rate c / - inject_Z (fft_size c))) by (field; lra).
    assert (0 < sample_rate c / - inject_Z (fft_size c))
      by (apply Qlt_shift_div_l; lra).
    rewrite E. lra. }
  assert (Hx : 0 <= sample_rate c * (1 - overlap c))
    by (apply Qmult_le_0_compat; lra).
  destruct (adjust_rate (sample_rate c) (bin_width c) (overlap c))
    as [fs | e] eqn:E1.
  2: { injection H as _ <-. left. reflexivity. }
  pose proof (adjust_rate_nonneg_for_negative_width _ _ _ _ Hd Hx E1) as Hfs.
  match type of H with
  | context [centers_of ?a ?b ?x] =>
      destruct (centers_of a b x) as [cfs | e] eqn:E2
  end.
  2: { injection H as _ <-. left. reflexivity. }
  destruct (last_item cfs) as [last | e] eqn:E3.
  2: { injection H as _ <-. left. reflexivity. }
  pose proof (centers_of_last _ _ _ _ _ Hfs E2 E3) as Hlast.
  match type of H with
  | context [arange ?a ?b ?x] =>
      destruct (arange a b x) as [bfs | e] eqn:E4
  end.
  2: { injection H as _ <-. left. reflexivity. }
  assert (Hbfs : bfs = []).
  { apply (arange_empty_for_negative_step _ _ _ _ Hd) in E4; [exact E4 |].
    assert (0 <= inject_Z fs).
    { change 0 with (inject_Z 0). now rewrite <- Zle_Qle. }
    halves. lra. }
  subst bfs. right.
  match type of H with
  | context [Utils.find_nearest ?a ?x] =>
      destruct (Utils.find_nearest a x)
  end; injection H as _ <-; reflexivity.
Qed.

(** X14, witness: the command line [700M -F -32]. *)
Lemma negative_fft_size_gives_no_bins_minus_32 :
  let c := init_attrs 10000000 (-32) 25 700000000 None in
  bin_freqs (snd (update c)) = bin_freqs c \/
  bin_freqs (snd (update c)) = Some [].
Proof.
  cbv zeta.
  apply (negative_fft_size_gives_no_bins
           (init_attrs 10000000 (-32) 25 700000000 None)
           (fst (update (init_attrs 10000000 (-32) 25 700000000 None)))).
  - reflexivity.
  - reflexivity.
  - vm_compute. congruence.
  - reflexivity.
  - vm_compute. reflexivity.
Defined.

(** *** The plot *)

Lemma segment_count_covers (fs : Z) (sp : Q) :
  (0 < fs)%Z ->
  sp <= inject_Z (Z.of_nat (segment_count fs sp)) * inject_Z fs.
Proof.
  intro Hpos. pose proof (inject_Z_pos fs Hpos) as HF.
  unfold segment_count. destruct (Qle_bool sp (inject_Z fs)) eqn:E.
  - apply Qle_bool_iff in E. change (inject_Z (Z.of_nat 1)) with 1. lra.
  - apply Qle_bool_false in E.
    pose proof (floor_quotient_nonneg sp fs Hpos E) as Hfl.
    pose proof (Qlt_floor (sp / inject_Z fs)) as H.
    rewrite Nat2Z.inj_succ, Z2Nat.id by lia. unfold Z.succ.
    unfold floor in *.
    apply (Qmult_lt_compat_r _ _ (inject_Z fs) HF) in H.
    assert (Ex : sp / inject_Z fs * inject_Z fs == sp) by (field; lra).
    rewrite Ex in H. lra.
Qed.

(** X15: for valid parameters with a positive usable bandwidth and a span of
    at least one bin, the x values that [configure_mpl_plot] takes from the
    plan, [bin_freqs[:max_plotted_bin]], are [max_plotted_bin] many, a frame
    [y] is accepted exactly when it has that many values, and every x value
    lies between the lowest and the highest x tick of [format_axis], that is
    within [center_freq - span/2, center_freq + span/2]. *)
Theorem plotted_axis_within_span (c : configuration) (fs : Z) (y : list Q) :
  valid_params c ->
  usable_bandwidth c = Returned fs ->
  (0 < fs)%Z ->
  bin_width c <= effective_span (requested_span c) fs ->
  exists c' m x lo hi ticks,
    update c = (Returned tt, c') /\
    max_plotted_bin c' = Some m /\
    Gui.format_axis_xticks c' = Returned (lo, hi, ticks) /\
    Gui.configure_mpl_plot c' y true
    = Returned (x, (List.length x =? List.length y)%nat) /\
    Z.of_nat (List.length x) = m /\
    lo == center_freq c - effective_span (requested_span c) fs / 2 /\
    hi == center_freq c + effective_span (requested_span c) fs / 2 /\
    (forall f, In f x -> lo < f /\ f <= hi).
Proof.
  intros Hv Hfs Hpos Hsp.
  destruct (update_returns c fs Hv Hfs Hpos)
    as (last & r & Hupd & _ & Hlast_eq & Hr & Hmin & _).
  pose proof (inject_Z_pos fs Hpos) as HF.
  pose proof (bin_width_pos c Hv) as Hd.
  set (d := bin_width c) in *.
  set (sp := effective_span (requested_span c) fs) in *.
  set (mn := center_freq c - sp / 2 + d / 2) in *.
  set (ub := last + inject_Z fs / 2) in *.
  set (bfs := planned_bins mn ub d) in *.
  set (mx := mn + sp - d) in *.
  (* the bin nearest max_freq is within half a bin of it *)
  assert (Hub : sp <= ub - mn).
  { pose proof (segment_count_covers fs sp Hpos) as Hc.
    assert (Hone : (1 <= segment_count fs sp)%nat).
    { unfold segment_count. destruct (Qle_bool sp (inject_Z fs)); lia. }
    replace (Z.of_nat (segment_count fs sp))
      with (Z.of_nat (segment_count fs sp - 1) + 1)%Z in Hc by lia.
    rewrite inject_Z_plus in Hc. change (inject_Z 1) with 1 in Hc.
    unfold ub. rewrite Hlast_eq. halves. lra. }
  set (t := (sp - d) / d).
  assert (Htd : t * d == sp - d) by (unfold t; field; lra).
  assert (Ht0 : 0 <= t) by (unfold t; apply Qle_shift_div_l; lra).
  set (z := Qfloor (t + (1 # 2))).
  assert (Hz0 : (0 <= z)%Z).
  { unfold z. rewrite <- (Qfloor_Z 0). apply Qfloor_resp_le.
    change (inject_Z 0) with 0. lra. }
  pose proof (Qfloor_le (t + (1 # 2))) as Hz1.
  pose proof (Qlt_floor (t + (1 # 2))) as Hz2.
  fold z in Hz1, Hz2. rewrite inject_Z_plus in Hz2.
  change (inject_Z 1) with 1 in Hz2.
  assert (Hz1d : inject_Z z * d <= (t + (1 # 2)) * d)
    by (apply Qmult_le_compat_r; lra).
  assert (Hz2d : (t + (1 # 2)) * d < (inject_Z z + 1) * d)
    by (apply Qmult_lt_compat_r; lra).
  assert (Hj0 : (Z.to_nat z < List.length bfs)%nat).
  { unfold bfs. rewrite planned_bins_length.
    pose proof (Qle_ceiling ((ub - mn) / d)) as Hc.
    assert (Hlt : inject_Z z < (ub - mn) / d).
    { apply Qlt_shift_div_l; [exact Hd |].
      assert (E : (t + (1 # 2)) * d == t * d + (1 # 2) * d) by ring.
      rewrite E, Htd in Hz1d. lra. }
    assert (Hzc : inject_Z z < inject_Z (Qceiling ((ub - mn) / d))) by lra.
    rewrite <- Zlt_Qlt in Hzc. lia. }
  assert (Hnear : nth r bfs 0 <= mx + d / 2).
  { specialize (Hmin (Z.to_nat z) Hj0).
    unfold bfs in Hmin. rewrite !planned_bins_nth in Hmin by assumption.
    rewrite Z2Nat.id in Hmin by exact Hz0.
    unfold bfs. rewrite planned_bins_nth by exact Hr.
    assert (Hcand : Qabs (mn + inject_Z z * d - mx) <= d / 2).
    { apply Qabs_Qle_condition.
      assert (E : (t + (1 # 2)) * d == t * d + (1 # 2) * d) by ring.
      assert (E2 : (inject_Z z + 1) * d == inject_Z z * d + d) by ring.
      rewrite E, Htd in Hz1d, Hz2d. rewrite E2 in Hz2d.
      unfold mx. halves. split; lra. }
    fold mx in Hmin.
    assert (Hb : Qabs (mn + inject_Z (Z.of_nat r) * d - mx) <= d / 2).
    { eapply Qle_trans; [exact Hmin | exact Hcand]. }
    apply Qabs_Qle_condition in Hb. lra. }
  exists (planned c fs last (Z.of_nat r)), (Z.of_nat r + 1)%Z,
    (firstn (S r) bfs), (center_freq c - sp / 2), (center_freq c + sp / 2),
    (Gui.linspace (center_freq c - sp / 2) (center_freq c + sp / 2) 5).
  assert (Hlenx : List.length (firstn (S r) bfs) = S r).
  { rewrite length_firstn. lia. }
  split; [exact Hupd |]. split; [reflexivity |]. split; [reflexivity |].
  split.
  { unfold Gui.configure_mpl_plot, planned. cbv zeta.
    cbn [bin_freqs max_plotted_bin]. fold d. fold sp. fold mn. fold ub. fold bfs.
    unfold Gui.slice_to.
    assert (E0 : (Z.of_nat r + 1 <? 0)%Z = false) by (apply Z.ltb_ge; lia).
    rewrite E0.
    replace (Z.to_nat (Z.of_nat r + 1)) with (S r) by lia.
    cbn [andb]. destruct (List.length (firstn (S r) bfs) =? List.length y)%nat;
      reflexivity. }
  split; [rewrite Hlenx; lia |].
  split; [reflexivity |]. split; [reflexivity |].
  intros f Hf.
  apply (In_nth _ _ 0) in Hf. destruct Hf as (j & Hj & <-).
  rewrite Hlenx in Hj. rewrite nth_firstn.
  assert (Ej : (j <? S r)%nat = true) by (apply Nat.ltb_lt; exact Hj).
  rewrite Ej.
  assert (Hjr : inject_Z (Z.of_nat j) <= inject_Z (Z.of_nat r)).
  { rewrite <- Zle_Qle. lia. }
  assert (Hj0q : 0 <= inject_Z (Z.of_nat j)).
  { change 0 with (inject_Z 0). rewrite <- Zle_Qle. lia. }
  unfold bfs in *. rewrite planned_bins_nth in Hnear by exact Hr.
  rewrite planned_bins_nth by lia.
  assert (Hjd : inject_Z (Z.of_nat j) * d <= inject_Z (Z.of_nat r) * d)
    by (apply Qmult_le_compat_r; lra).
  assert (Hj0d : 0 <= inject_Z (Z.of_nat j) * d)
    by (apply Qmult_le_0_compat; lra).
  unfold mx, mn in *. halves. split; lra.
Qed.

(** X15, witness: the command line [700M -F 32 --span 100M] and a frame of
    320 zeros. *)
Lemma plotted_axis_within_span_100M :
  let c := init_attrs 10000000 32 25 700000000 (Some 100000000) in
  let y := repeat 0 320 in
  exists c' m x lo hi ticks,
    update c = (Returned tt, c') /\
    max_plotted_bin c' = Some m /\
    Gui.format_axis_xticks c' = Returned (lo, hi, ticks) /\
    Gui.configure_mpl_plot c' y true
    = Returned (x, (List.length x =? List.length y)%nat) /\
    Z.of_nat (List.length x) = m /\
    lo == center_freq c - effective_span (requested_span c) 7500000 / 2 /\
    hi == center_freq c + effective_span (requested_span c) 7500000 / 2 /\
    (forall f, In f x -> lo < f /\ f <= hi).
Proof.
  cbv zeta. apply plotted_axis_within_span.
  - vm_compute. repeat split; congruence.
  - vm_compute. reflexivity.
  - lia.
  - vm_compute. congruence.
Defined.

(** X16: when the span is a whole number [K >= 1] of bins, the bin nearest
    [max_freq] is [max_freq] itself, at index [K - 1], and [max_plotted_bin]
    is [K]: exactly the [K] bins of the span are plotted. *)
Theorem plotted_bins_for_whole_span (c : configuration) (fs K : Z) :
  valid_params c ->
  usable_bandwidth c = Returned fs ->
  (0 < fs)%Z ->
  (1 <= K)%Z ->
  effective_span (requested_span c) fs == inject_Z K * bin_width c ->
  exists c' bfs mx,
    update c = (Returned tt, c') /\
    bin_freqs c' = Some bfs /\ max_freq c' = Some mx /\
    max_plotted_bin c' = Some K /\
    (Z.to_nat (K - 1) < List.length bfs)%nat /\
    nth (Z.to_nat (K - 1)) bfs 0 == mx.
Proof.
  intros Hv Hfs Hpos HK Hsp.
  destruct (update_returns c fs Hv Hfs Hpos)
    as (last & r & Hupd & _ & Hlast_eq & Hr & Hmin & _).
  pose proof (inject_Z_pos fs Hpos) as HF.
  pose proof (bin_width_pos c Hv) as Hd.
  set (d := bin_width c) in *.
  set (sp := effective_span (requested_span c) fs) in *.
  set (mn := center_freq c - sp / 2 + d / 2) in *.
  set (ub := last + inject_Z fs / 2) in *.
  set (bfs := planned_bins mn ub d) in *.
  assert (Hub : sp <= ub - mn).
  { pose proof (segment_count_covers fs sp Hpos) as Hc.
    assert (Hone : (1 <= segment_count fs sp)%nat).
    { unfold segment_count. destruct (Qle_bool sp (inject_Z fs)); lia. }
    replace (Z.of_nat (segment_count fs sp))
      with (Z.of_nat (segment_count fs sp - 1) + 1)%Z in Hc by lia.
    rewrite inject_Z_plus in Hc. change (inject_Z 1) with 1 in Hc.
    unfold ub. rewrite Hlast_eq. halves. lra. }
  assert (EK : inject_Z (K - 1) == inject_Z K - 1).
  { unfold Z.sub. rewrite inject_Z_plus. reflexivity. }
  assert (Hmx : mn + inject_Z (K - 1) * d == mn + sp - d).
  { rewrite EK, Hsp. ring. }
  assert (Hj0 : (Z.to_nat (K - 1) < List.length bfs)%nat).
  { unfold bfs. rewrite planned_bins_length.
    pose proof (Qle_ceiling ((ub - mn) / d)) as Hc.
    assert (Hlt : inject_Z (K - 1) < (ub - mn) / d).
    { apply Qlt_shift_div_l; [exact Hd |]. lra. }
    assert (Hzc : inject_Z (K - 1) < inject_Z (Qceiling ((ub - mn) / d))) by lra.
    rewrite <- Zlt_Qlt in Hzc. lia. }
  assert (Er : Z.of_nat r = (K - 1)%Z).
  { specialize (Hmin (Z.to_nat (K - 1)) Hj0).
    unfold bfs in Hmin. rewrite !planned_bins_nth in Hmin by assumption.
    rewrite Z2Nat.id in Hmin by lia.
    assert (E0 : mn + inject_Z (K - 1) * d - (mn + sp - d) == 0)
      by (rewrite Hmx; ring).
    rewrite E0 in Hmin. change (Qabs 0) with 0 in Hmin.
    apply Qabs_Qle_condition in Hmin.
    assert (Erd : inject_Z (Z.of_nat r) * d == inject_Z (K - 1) * d) by lra.
    destruct (Z.lt_trichotomy (Z.of_nat r) (K - 1)) as [Hlt | [Heq | Hgt]];
      [| exact Heq |].
    - rewrite Zlt_Qlt in Hlt.
      apply (Qmult_lt_compat_r _ _ d Hd) in Hlt. lra.
    - rewrite Zlt_Qlt in Hgt.
      apply (Qmult_lt_compat_r _ _ d Hd) in Hgt. lra. }
  exists (planned c fs last (Z.of_nat r)), bfs, (mn + sp - d).
  split; [exact Hupd |]. do 2 (split; [reflexivity |]).
  split.
  { unfold planned. cbv zeta. cbn [max_plotted_bin]. f_equal. lia. }
  split; [exact Hj0 |].
  unfold bfs. rewrite planned_bins_nth by exact Hj0.
  rewrite Z2Nat.id by lia. exact Hmx.
Qed.

(** X16, witness: the command line [700M -F 32 --span 100M]: 320 bins of
    312500 Hz. *)
Lemma plotted_bins_for_span_100M :
  let c := init_attrs 10000000 32 25 700000000 (Some 100000000) in
  exists c' bfs mx,
    update c = (Returned tt, c') /\
    bin_freqs c' = Some bfs /\ max_freq c' = Some mx /\
    max_plotted_bin c' = Some 320%Z /\
    (Z.to_nat (320 - 1) < List.length bfs)%nat /\
    nth (Z.to_nat (320 - 1)) bfs 0 == mx.
Proof.
  cbv zeta. apply (plotted_bins_for_whole_span _ 7500000 320).
  - vm_compute. repeat split; congruence.
  - vm_compute. reflexivity.
  - lia.
  - lia.
  - reflexivity.
Defined.

(** *** More on the usable bandwidth *)

Lemma int_mono (x y : Q) : x <= y -> (int x <= int y)%Z.
Proof.
  intro H. unfold int.
  destruct (Qle_bool 0 x) eqn:Ex; destruct (Qle_bool 0 y) eqn:Ey.
  - now apply Qfloor_resp_le.
  - apply Qle_bool_iff in Ex. apply Qle_bool_false in Ey. lra.
  - apply Qle_bool_false in Ex. apply Qle_bool_iff in Ey.
    transitivity 0%Z.
    + rewrite <- (Qceiling_Z 0). apply Qceiling_resp_le.
      change (inject_Z 0) with 0. lra.
    + rewrite <- (Qfloor_Z 0). now apply Qfloor_resp_le.
  - now apply Qceiling_resp_le.
Qed.

(** X17: a larger overlap never gives a larger usable bandwidth. *)
Theorem adjust_rate_decreases_with_overlap (sr d ov1 ov2 : Q) (fs1 fs2 : Z) :
  0 < d ->
  0 <= sr ->
  ov1 <= ov2 ->
  adjust_rate sr d ov1 = Returned fs1 ->
  adjust_rate sr d ov2 = Returned fs2 ->
  (fs2 <= fs1)%Z.
Proof.
  intros Hd Hsr Hov H1 H2.
  rewrite adjust_rate_returned in H1, H2 by lra.
  injection H1 as <-. injection H2 as <-.
  apply int_mono. apply Qmult_le_compat_r; [| lra].
  rewrite <- Zle_Qle. apply round_mono.
  assert (Hinv : 0 <= / d) by (apply Qinv_le_0_compat; lra).
  unfold Qdiv. apply Qmult_le_compat_r; [| exact Hinv].
  assert (E1 : sr * (1 - ov1) == sr - sr * ov1) by ring.
  assert (E2 : sr * (1 - ov2) == sr - sr * ov2) by ring.
  rewrite E1, E2.
  assert (sr * ov1 <= sr * ov2).
  { rewrite (Qmult_comm sr ov1), (Qmult_comm sr ov2).
    now apply Qmult_le_compat_r. }
  lra.
Qed.

(** X17, witness: 10 MHz and 1024 bins, 1 % against 25 % overlap. *)
Lemma adjust_rate_decreases_with_overlap_1_25 : (7500000 <= 9902343)%Z.
Proof.
  apply (adjust_rate_decreases_with_overlap
           10000000 (78125 # 8) (1 # 100) (25 # 100)).
  - reflexivity.
  - vm_compute. congruence.
  - vm_compute. congruence.
  - vm_compute. reflexivity.
  - vm_compute. reflexivity.
Defined.

(** X18: [freq_step] is at least 1 whenever the target
    [sample_rate * (1 - overlap)] is at least half a bin plus 1 Hz; valid
    parameters with a usable bandwidth of 0 are below that. *)
Theorem usable_bandwidth_positive (c : configuration) (fs : Z) :
  valid_params c ->
  bin_width c / 2 + 1 <= sample_rate c * (1 - overlap c) ->
  usable_bandwidth c = Returned fs ->
  (1 <= fs)%Z.
Proof.
  intros Hv Hx H. pose proof (bin_width_pos c Hv) as Hd.
  destruct Hv as (Hsr & Hn & _ & Hov0 & Hov1).
  unfold usable_bandwidth in H. rewrite adjust_rate_returned in H by lra.
  injection H as <-.
  set (d := bin_width c) in *.
  set (x := sample_rate c * (1 - overlap c)) in *. set (y := x / d).
  assert (Hd2 : 0 <= d / 2) by (apply Qle_shift_div_l; lra).
  assert (Hx0 : 0 <= x) by lra.
  assert (Hyd : y * d == x) by (unfold y; field; lra).
  assert (Hy : 0 <= y) by (unfold y; apply Qle_shift_div_l; lra).
  pose proof (round_nonneg y Hy) as Hk.
  pose proof (round_nearest y) as Hn'. apply Qabs_Qle_condition in Hn'.
  destruct Hn' as (Hn1 & _).
  set (k := inject_Z (round y)) in *.
  assert (Hk0 : 0 <= k).
  { unfold k. change 0 with (inject_Z 0). now rewrite <- Zle_Qle. }
  assert (Hkd : 0 <= k * d) by (apply Qmult_le_0_compat; lra).
  destruct (int_bounds_nonneg (k * d) Hkd) as (_ & B2 & _).
  apply (Qmult_le_compat_r _ _ d) in Hn1; [| lra].
  assert (E : (k - y) * d == k * d - x) by (rewrite <- Hyd; ring).
  rewrite E in Hn1.
  assert (Hlt : inject_Z 0 < inject_Z (int (k * d))).
  { change (inject_Z 0) with 0. halves. lra. }
  rewrite <- Zlt_Qlt in Hlt. lia.
Qed.

(** X18, witness: the default command line. *)
Lemma usable_bandwidth_positive_default : (1 <= 7500000)%Z.
Proof.
  apply (usable_bandwidth_positive default_attrs).
  - vm_compute. repeat split; congruence.
  - vm_compute. congruence.
  - vm_compute. reflexivity.
Defined.

(** *** A usable bandwidth of 0 *)

(** X19: when [adjust_rate] gives 0 and a positive span is requested,
    [update] raises [ZeroDivisionError] in [update_tuned_freq_cache]
    ([span / freq_step]); [freq_step] and [span] are assigned by then, the
    centers and the bin frequencies are as they were. *)
Theorem zero_step_with_span_raises (c : configuration) (q : Q) :
  fft_size c <> 0%Z ->
  usable_bandwidth c = Returned 0%Z ->
  requested_span c = Some q ->
  0 < q ->
  exists c',
    update c = (Raised ZeroDivisionError, c') /\
    freq_step c' = Some 0%Z /\ span c' = Some q /\
    center_freqs c' = center_freqs c /\ n_segments c' = n_segments c /\
    bin_freqs c' = bin_freqs c.
Proof.
  intros Hn Hfs Hrs Hq.
  rewrite update_nf_eq. unfold update_nf. cbv zeta.
  apply Z.eqb_neq in Hn. rewrite Hn.
  unfold usable_bandwidth in Hfs. rewrite Hfs, Hrs.
  assert (Esp : effective_span (Some q) 0 = q).
  { unfold effective_span.
    assert (Hne : Qeq_bool q 0 = false) by (apply Qeq_bool_false; lra).
    now rewrite Hne. }
  rewrite Esp.
  assert (Ec : forall mn, centers_of mn 0 q = Raised ZeroDivisionError).
  { intro mn. unfold centers_of. cbv zeta.
    assert (Hb : Qle_bool q (inject_Z 0) = false)
      by (apply Qle_bool_false; exact Hq).
    rewrite Hb. reflexivity. }
  rewrite Ec. eexists. split; [reflexivity |].
  repeat split; reflexivity.
Qed.

(** X19, witness: the command line [700M -F 32 -o 99 --span 100M]. *)
Lemma zero_step_with_span_raises_overlap_99 :
  let c := init_attrs 10000000 32 99 700000000 (Some 100000000) in
  exists c',
    update c = (Raised ZeroDivisionError, c') /\
    freq_step c' = Some 0%Z /\ span c' = Some 100000000 /\
    center_freqs c' = center_freqs c /\ n_segments c' = n_segments c /\
    bin_freqs c' = bin_freqs c.
Proof.
  cbv zeta. apply zero_step_with_span_raises.
  - discriminate.
  - vm_compute. reflexivity.
  - reflexivity.
  - reflexivity.
Defined.

(** X20: when [adjust_rate] gives 0 and no span is requested, the span is 0,
    there is one center, at [min_freq], and, however [update] ends,
    [bin_freqs] is the empty array. *)
Theorem zero_step_without_span_gives_no_bins (c : configuration)
    (o : outcome unit) (c' : configuration) :
  fft_size c <> 0%Z ->
  usable_bandwidth c = Returned 0%Z ->
  requested_span c = None ->
  update c = (o, c') ->
  exists mn fc,
    span c' = Some 0 /\ min_freq c' = Some mn /\
    center_freqs c' = Some [fc] /\ fc == mn /\
    n_segments c' = Some 1%Z /\
    bin_freqs c' = Some [].
Proof.
  intros Hn Hfs Hrs H.
  assert (Hd : ~ bin_width c == 0).
  { intro E. unfold usable_bandwidth, adjust_rate in Hfs.
    rewrite (truediv_zero _ _ E) in Hfs. discriminate. }
  rewrite update_nf_eq in H. unfold update_nf in H. cbv zeta in H.
  apply Z.eqb_neq in Hn. rewrite Hn in H.
  unfold usable_bandwidth in Hfs. rewrite Hfs, Hrs in H.
  change (effective_span None 0) with (inject_Z 0) in H.
  set (mn := center_freq c - inject_Z 0 / 2 + bin_width c / 2) in *.
  assert (Ec : centers_of mn 0 (inject_Z 0) = Returned [mn + inject_Z 0 / 2])
    by reflexivity.
  rewrite Ec in H. cbv beta iota in H.
  change (last_item [mn + inject_Z 0 / 2]) with (Returned (mn + inject_Z 0 / 2))
    in H.
  cbv beta iota in H.
  assert (Ea : arange mn (mn + inject_Z 0 / 2 + inject_Z 0 / 2) (bin_width c)
               = Returned []).
  { rewrite arange_returned by exact Hd.
    assert (Eq : (mn + inject_Z 0 / 2 + inject_Z 0 / 2 - mn) / bin_width c
                 == inject_Z 0).
    { change (inject_Z 0) with 0. field. exact Hd. }
    rewrite (Qceiling_comp _ _ Eq), Qceiling_Z. reflexivity. }
  rewrite Ea in H. cbv beta iota in H.
  exists mn, (mn + inject_Z 0 / 2).
  assert (Efc : mn + inject_Z 0 / 2 == mn).
  { change (inject_Z 0) with 0. field. }
  match type of H with
  | context [Utils.find_nearest ?a ?x] =>
      destruct (Utils.find_nearest a x)
  end; injection H as _ <-;
    (split; [reflexivity |]); (split; [reflexivity |]);
    (split; [reflexivity |]); (split; [exact Efc |]);
    split; reflexivity.
Qed.

(** X20, witness: the command line [700M -F 32 -o 99]. *)
Lemma zero_step_without_span_overlap_99 :
  let c := init_attrs 10000000 32 99 700000000 None in
  exists mn fc,
    span (snd (update c)) = Some 0 /\ min_freq (snd (update c)) = Some mn /\
    center_freqs (snd (update c)) = Some [fc] /\ fc == mn /\
    n_segments (snd (update c)) = Some 1%Z /\
    bin_freqs (snd (update c)) = Some [].
Proof.
  cbv zeta.
  apply (zero_step_without_span_gives_no_bins
           (init_attrs 10000000 32 99 700000000 None)
           (fst (update (init_attrs 10000000 32 99 700000000 None)))).
  - discriminate.
  - vm_compute. reflexivity.
  - reflexivity.
  - vm_compute. reflexivity.
Defined.

End Extras.
